(** * Query_Processor_Lambda: the RAG query handler

    A shallow embedding of [Query_Processor_Lambda.py], the AWS Lambda that
    answers a question from the documents a vector search finds, and the
    properties of its specification.

    - Python strings, values and exceptions, as far as the handler uses
      them; [json.loads], [json.dumps] and [repr] stay abstract, in the
      class [Runtime].
    - The external collaborators (Secrets Manager, the HTTP endpoints,
      OpenSearch, CloudWatch, the logger, the Lambda context) are the calls
      of a free monad; a program is run against a [world] that answers
      them, and the run records the trace of the calls made.
    - The functions of the source, one definition each, under their names.
    - [Samples]: a runtime, configurations and scripted worlds at which
      the properties are evaluated.
    - The request and the documents as the specification describes them.
    - The properties, C1 to C10.
    - Further properties of the source, X1 to X20: the secret provider,
      the search client, the two HTTP clients, and the handler end to
      end. *)

From Stdlib Require Import ZArith NArith Ascii String DecimalString.
From Stdlib.Floats Require Import SpecFloat.
From stdpp Require Import base tactics option list gmap.

Set Default Proof Using "Type".
Local Open Scope Z_scope.

(** ** Python strings

    A [str] is a sequence of Unicode code points. *)

Definition pystr : Type := list N.

(** An ASCII literal of the source. *)
Definition lit (s : string) : pystr :=
  map N_of_ascii (list_ascii_of_string s).

Arguments lit : simpl never.

(** The newline character, written [\n] in the source, and the double
    quote. *)
Definition nl : pystr := [10%N].
Definition dquote : pystr := [34%N].

(** [str.isspace] on one code point: the code points CPython classifies
    as whitespace ([_PyUnicode_IsWhitespace]). *)
Definition is_space (c : N) : bool :=
  ((9 <=? c) && (c <=? 13) || (28 <=? c) && (c <=? 32)
   || (c =? 133) || (c =? 160) || (c =? 5760)
   || (8192 <=? c) && (c <=? 8202)
   || (c =? 8232) || (c =? 8233) || (c =? 8239) || (c =? 8287)
   || (c =? 12288))%N.

Fixpoint lstrip (s : pystr) : pystr :=
  match s with
  | c :: s' => if is_space c then lstrip s' else s
  | [] => []
  end.

Definition rstrip (s : pystr) : pystr := reverse (lstrip (reverse s)).

(** [s.strip()] *)
Definition strip (s : pystr) : pystr := rstrip (lstrip s).

(** [sep.join(parts)] *)
Fixpoint join (sep : pystr) (parts : list pystr) : pystr :=
  match parts with
  | [] => []
  | [p] => p
  | p :: ps => p ++ sep ++ join sep ps
  end.

(** [str(n)] for an [int]. *)
Definition str_of_int (n : Z) : pystr :=
  lit (NilZero.string_of_int (Z.to_int n)).

(** ** Python values

    The values that reach the handler come out of JSON documents: the
    event, the secret, the HTTP payloads and the search hits. A [dict] keeps
    its items in insertion order; its keys are strings. *)

#[warnings="-register-all"]
Inductive pyval : Type :=
| PNone
| PBool (b : bool)
| PInt (n : Z)
| PFloat (f : spec_float)
| PStr (s : pystr)
| PList (l : list pyval)
| PDict (d : list (pystr * pyval)).

(** [type(v).__name__] *)
Definition type_name (v : pyval) : pystr :=
  match v with
  | PNone => lit "NoneType"
  | PBool _ => lit "bool"
  | PInt _ => lit "int"
  | PFloat _ => lit "float"
  | PStr _ => lit "str"
  | PList _ => lit "list"
  | PDict _ => lit "dict"
  end.

(** ** Exceptions

    An exception is kept as its class and the text [str(e)] gives. Only
    subclasses of [Exception] are modelled: they are what the [except
    Exception] clauses of the source catch. *)

Record exn : Type := Exn { exc_class : string; exc_str : pystr }.

Inductive result (A : Type) : Type :=
| Ok (a : A)
| Raise (e : exn).
Arguments Ok {A} a.
Arguments Raise {A} e.

Definition AttributeError (v : pyval) (attr : string) : exn :=
  Exn "AttributeError"
      (lit "'" ++ type_name v ++ lit "' object has no attribute '"
           ++ lit attr ++ lit "'").

(** [KeyError(key)]: its text is [repr(key)], for the identifier-like keys
    of the source the key between single quotes. *)
Definition KeyError (key : pystr) : exn :=
  Exn "KeyError" (lit "'" ++ key ++ lit "'").

Definition TypeError (msg : pystr) : exn := Exn "TypeError" msg.
Definition IndexError (msg : pystr) : exn := Exn "IndexError" msg.

(** [raise Exception(msg)] *)
Definition Exception (msg : pystr) : exn := Exn "Exception" msg.

(** ** Operations of the interpreter on values *)

(** Items of a [dict]: the value under a key. *)
Fixpoint lookup_key (k : pystr) (d : list (pystr * pyval)) : option pyval :=
  match d with
  | [] => None
  | (k', v) :: d' => if decide (k = k') then Some v else lookup_key k d'
  end.

(** [v.get(key, default)] *)
Definition py_get (v : pyval) (key : pystr) (dflt : pyval) : result pyval :=
  match v with
  | PDict d => Ok (default dflt (lookup_key key d))
  | _ => Raise (AttributeError v "get")
  end.

(** [v[key]] for a string key. *)
Definition py_item (v : pyval) (key : pystr) : result pyval :=
  match v with
  | PDict d =>
      match lookup_key key d with
      | Some x => Ok x
      | None => Raise (KeyError key)
      end
  | PList _ =>
      Raise (TypeError (lit "list indices must be integers or slices, not str"))
  | PStr _ =>
      Raise (TypeError (lit "string indices must be integers, not 'str'"))
  | _ =>
      Raise (TypeError (lit "'" ++ type_name v ++ lit "' object is not subscriptable"))
  end.

(** [v[0]] *)
Definition py_first (v : pyval) : result pyval :=
  match v with
  | PList (x :: _) => Ok x
  | PList [] => Raise (IndexError (lit "list index out of range"))
  | PStr (c :: _) => Ok (PStr [c])
  | PStr [] => Raise (IndexError (lit "string index out of range"))
  | PDict _ => Raise (Exn "KeyError" (lit "0"))
  | _ =>
      Raise (TypeError (lit "'" ++ type_name v ++ lit "' object is not subscriptable"))
  end.

(** [v.strip()] *)
Definition py_strip (v : pyval) : result pystr :=
  match v with
  | PStr s => Ok (strip s)
  | _ => Raise (AttributeError v "strip")
  end.

(** [len(v)] *)
Definition py_len (v : pyval) : result nat :=
  match v with
  | PStr s => Ok (length s)
  | PList l => Ok (length l)
  | PDict d => Ok (length d)
  | _ =>
      Raise (TypeError (lit "object of type '" ++ type_name v ++ lit "' has no len()"))
  end.

(** [v[:n]] *)
Definition py_prefix (n : nat) (v : pyval) : result pyval :=
  match v with
  | PStr s => Ok (PStr (take n s))
  | PList l => Ok (PList (take n l))
  | PDict _ => Raise (TypeError (lit "unhashable type: 'slice'"))
  | _ =>
      Raise (TypeError (lit "'" ++ type_name v ++ lit "' object is not subscriptable"))
  end.

(** [v + s] for a string [s]. *)
Definition py_add_str (v : pyval) (s : pystr) : result pyval :=
  match v with
  | PStr a => Ok (PStr (a ++ s))
  | PList _ =>
      Raise (TypeError (lit "can only concatenate list (not " ++ dquote ++ lit "str"
                            ++ dquote ++ lit ") to list"))
  | _ =>
      Raise (TypeError (lit "unsupported operand type(s) for +: '" ++ type_name v
                            ++ lit "' and 'str'"))
  end.

(** The items a [for] loop over [v] visits. *)
Definition py_iter (v : pyval) : result (list pyval) :=
  match v with
  | PList l => Ok l
  | PDict d => Ok (map (fun kv => PStr (fst kv)) d)
  | PStr s => Ok (map (fun c => PStr [c]) s)
  | _ => Raise (TypeError (lit "'" ++ type_name v ++ lit "' object is not iterable"))
  end.

(** [isinstance(v, str)] *)
Definition is_str (v : pyval) : bool :=
  match v with PStr _ => true | _ => false end.

(** [a / b] on two [int]s: the binary64 float nearest to the quotient. *)
Definition float_of_int_operand (n : Z) : spec_float :=
  match n with
  | Z0 => S754_zero false
  | Zpos p => S754_finite false p 0
  | Zneg p => S754_finite true p 0
  end.

Definition true_div (a b : Z) : result pyval :=
  if b =? 0 then Raise (Exn "ZeroDivisionError" (lit "division by zero"))
  else
    match SFdiv 53 1024 (float_of_int_operand a) (float_of_int_operand b) with
    | S754_infinity _ =>
        Raise (Exn "OverflowError"
                   (lit "integer division result too large for a float"))
    | f => Ok (PFloat f)
    end.

(** ** The rest of the interpreter

    [json.loads], [json.dumps] and the text of a float or of a container
    are the standard library's; the handler is verified for every
    behaviour of theirs. *)

Class Runtime : Type := {
  json_loads : pystr -> result pyval;
  json_dumps : pyval -> pystr;
  py_repr : pyval -> pystr
}.

(** ** External collaborators *)

(** What [requests.post] returns: [response.status_code], [response.text]
    and the outcome of [response.json()]. *)
Module Response.
Record t : Type := {
  status_code : Z;
  text : pystr;
  json : result pyval
}.
End Response.

(** The calls the functions of the source make outside the interpreter:
    [secrets_client.get_secret_value], [requests.post],
    [opensearch_client.search] and [cloudwatch.put_metric_data], which
    return or raise, and [context.get_remaining_time_in_millis] and the
    logger, which return. *)
Inductive call : Type -> Type :=
| get_secret_value (SecretId : pystr) : call (result pyval)
| requests_post (url : pystr) (headers payload : pyval) (timeout : Z) :
    call (result Response.t)
| opensearch_search (index : pystr) (body : pyval) : call (result pyval)
| put_metric_data (Namespace : pystr) (MetricData : pyval) : call (result unit)
| get_remaining_time_in_millis : call Z
| logger_info (msg : pystr) : call unit
| logger_error (msg : pystr) : call unit.

(** One call made, as the trace of a run records it. *)
Inductive invocation : Type :=
| Invoke {X : Type} (c : call X).

(** The world outside the handler answers each call; its answer may depend
    on all the calls made before (a rotated secret, a clock that runs). *)
Definition world : Type := forall X : Type, call X -> list invocation -> X.

(** ** Programs: a free monad over the calls, with exceptions *)

Inductive prog (A : Type) : Type :=
| Ret (a : A)
| Do {X : Type} (c : call X) (k : X -> prog A).
Arguments Ret {A} a.
Arguments Do {A X} c k.

(** Running a program in a world, from the trace [h] of the calls already
    made, gives its result and the trace extended by its own calls. *)
Fixpoint run {A : Type} (w : world) (p : prog A) (h : list invocation)
  : A * list invocation :=
  match p with
  | Ret a => (a, h)
  | Do c k => run w (k (w _ c h)) (h ++ [Invoke c])
  end.

Definition M (A : Type) : Type := prog (result A).

Definition ret {A : Type} (a : A) : M A := Ret (Ok a).
Definition raise {A : Type} (e : exn) : M A := Ret (Raise e).
Definition lift {A : Type} (r : result A) : M A := Ret r.

Fixpoint bind {A B : Type} (p : M A) (f : A -> M B) : M B :=
  match p with
  | Ret (Ok a) => f a
  | Ret (Raise e) => Ret (Raise e)
  | Do c k => Do c (fun x => bind (k x) f)
  end.

(** [try: p except Exception as e: handler e] *)
Fixpoint try_except {A : Type} (p : M A) (handler : exn -> M A) : M A :=
  match p with
  | Ret (Ok a) => Ret (Ok a)
  | Ret (Raise e) => handler e
  | Do c k => Do c (fun x => try_except (k x) handler)
  end.

(** A call that returns, and a call that may raise. *)
Definition perform {X : Type} (c : call X) : M X := Do c (fun x => Ret (Ok x)).
Definition invoke {X : Type} (c : call (result X)) : M X := Do c Ret.

Definition result_bind {A B : Type} (r : result A) (f : A -> result B)
  : result B :=
  match r with
  | Ok a => f a
  | Raise e => Raise e
  end.

Declare Scope py_scope.
Delimit Scope py_scope with py.
Notation "x <- p ;; k" := (bind p (fun x => k))
  (at level 100, p at next level, right associativity) : py_scope.
Notation "p ;; k" := (bind p (fun _ => k))
  (at level 100, right associativity) : py_scope.
Notation "x <~ r ;; k" := (result_bind r (fun x => k))
  (at level 100, r at next level, right associativity) : py_scope.

(** A list comprehension whose element expression may raise. *)
Fixpoint comprehension {A B : Type} (f : A -> result B) (l : list A)
  : result (list B) :=
  match l with
  | [] => Ok []
  | x :: l' =>
      (y <~ f x ;; ys <~ comprehension f l' ;; Ok (y :: ys))%py
  end.

(** ** The module state after import

    [LLM_API_KEY_SECRET] and [EXTERNAL_LLM_ENDPOINT] are read from the
    environment once, when the module is loaded; [environ] is [os.environ]
    as the functions see it at each call. *)

Record config : Type := {
  LLM_API_KEY_SECRET : pystr;
  EXTERNAL_LLM_ENDPOINT : pystr;
  environ : gmap pystr pystr
}.

(** What the handler returns to the Lambda runtime. *)
Record response : Type := {
  statusCode : Z;
  headers : list (pystr * pystr);
  body : pystr
}.

(** The two headers every [return] of the handler writes. *)
Definition json_cors_headers : list (pystr * pystr) :=
  [(lit "Content-Type", lit "application/json");
   (lit "Access-Control-Allow-Origin", lit "*")].

Local Open Scope py_scope.

(** ** The secret provider and the three clients *)

Section Clients.
Context `{Runtime} (cfg : config).

(** A value inside an f-string. *)
Definition format_value (v : pyval) : pystr :=
  match v with
  | PStr s => s
  | PInt n => str_of_int n
  | PNone => lit "None"
  | PBool true => lit "True"
  | PBool false => lit "False"
  | _ => py_repr v
  end.

(** [json.loads(v)] *)
Definition py_json_loads (v : pyval) : result pyval :=
  match v with
  | PStr s => json_loads s
  | _ =>
      Raise (TypeError (lit "the JSON object must be str, bytes or bytearray, not "
                            ++ type_name v))
  end.

(** [os.environ[key]] *)
Definition environ_item (key : pystr) : result pystr :=
  match environ cfg !! key with
  | Some v => Ok v
  | None => Raise (KeyError key)
  end.

Definition get_secret (secret_name : pystr) : M pyval :=
  try_except
    (response <- invoke (get_secret_value secret_name) ;;
     secret_string <- lift (py_item response (lit "SecretString")) ;;
     lift (py_json_loads secret_string))
    (fun e =>
       perform (logger_error (lit "Error retrieving secret: " ++ exc_str e)) ;;
       raise e).

Definition bearer_headers (api_key : pyval) : pyval :=
  PDict [(lit "Authorization", PStr (lit "Bearer " ++ format_value api_key));
         (lit "Content-Type", PStr (lit "application/json"))].

Definition generate_embedding (text : pystr) : M pyval :=
  try_except
    (secret <- get_secret (LLM_API_KEY_SECRET cfg) ;;
     api_key <- lift (py_item secret (lit "api_key")) ;;
     let headers := bearer_headers api_key in
     let payload :=
       PDict [(lit "input", PStr text);
              (lit "model", PStr (lit "text-embedding-ada-002"))] in
     response <- invoke (requests_post
                           (EXTERNAL_LLM_ENDPOINT cfg ++ lit "/embeddings")
                           headers payload 30) ;;
     if Response.status_code response =? 200 then
       lift (j <~ Response.json response ;;
             data <~ py_item j (lit "data") ;;
             first <~ py_first data ;;
             py_item first (lit "embedding"))
     else
       perform (logger_error
                  (lit "Embedding API error: " ++ str_of_int (Response.status_code response)
                       ++ lit " - " ++ Response.text response)) ;;
       raise (Exception (lit "Embedding generation failed: "
                             ++ str_of_int (Response.status_code response))))
    (fun e =>
       perform (logger_error (lit "Error generating embedding: " ++ exc_str e)) ;;
       raise e).

Definition search_similar_documents (query_embedding : pyval) (top_k : Z)
  : M (list pyval) :=
  try_except
    (let search_body :=
       PDict [(lit "size", PInt top_k);
              (lit "query",
               PDict [(lit "knn",
                       PDict [(lit "embedding",
                               PDict [(lit "vector", query_embedding);
                                      (lit "k", PInt top_k)])])]);
              (lit "_source",
               PList [PStr (lit "content"); PStr (lit "metadata");
                      PStr (lit "title")])] in
     index <- lift (environ_item (lit "VECTOR_INDEX_NAME")) ;;
     response <- invoke (opensearch_search index search_body) ;;
     lift (outer <~ py_item response (lit "hits") ;;
           inner <~ py_item outer (lit "hits") ;;
           hits <~ py_iter inner ;;
           comprehension (fun hit => py_item hit (lit "_source")) hits))
    (fun e =>
       perform (logger_error (lit "Error searching documents: " ++ exc_str e)) ;;
       raise e).

(** One document of the context block:
    [f"Document: {doc.get('title', 'Unknown')}\n{doc.get('content', '')}"] *)
Definition render_document (doc : pyval) : result pystr :=
  title <~ py_get doc (lit "title") (PStr (lit "Unknown")) ;;
  content <~ py_get doc (lit "content") (PStr (lit "")) ;;
  Ok (lit "Document: " ++ format_value title ++ nl ++ format_value content).

Definition context_block (context_documents : list pyval) : result pystr :=
  parts <~ comprehension render_document context_documents ;;
  Ok (join (nl ++ nl) parts).

Definition prompt_of (context query : pystr) : pystr :=
  lit "Based on the following context, answer the user's question. If the answer cannot be found in the context, say so clearly."
    ++ nl ++ nl ++ lit "Context:" ++ nl ++ context ++ nl ++ nl
    ++ lit "Question: " ++ query ++ nl ++ nl ++ lit "Answer:".

Definition chat_payload (prompt : pystr) : pyval :=
  PDict [(lit "model", PStr (lit "gpt-4"));
         (lit "messages",
          PList [PDict [(lit "role", PStr (lit "system"));
                        (lit "content",
                         PStr (lit "You are a helpful assistant that answers questions based on provided context."))];
                 PDict [(lit "role", PStr (lit "user"));
                        (lit "content", PStr prompt)]]);
         (lit "max_tokens", PInt 500);
         (lit "temperature",
          PFloat (S754_finite false 6305039478318694 (-53)))].

Definition generate_rag_response (query : pystr) (context_documents : list pyval)
  : M pyval :=
  try_except
    (secret <- get_secret (LLM_API_KEY_SECRET cfg) ;;
     api_key <- lift (py_item secret (lit "api_key")) ;;
     context <- lift (context_block context_documents) ;;
     let prompt := prompt_of context query in
     let headers := bearer_headers api_key in
     let payload := chat_payload prompt in
     response <- invoke (requests_post
                           (EXTERNAL_LLM_ENDPOINT cfg ++ lit "/chat/completions")
                           headers payload 60) ;;
     if Response.status_code response =? 200 then
       lift (j <~ Response.json response ;;
             choices <~ py_item j (lit "choices") ;;
             first <~ py_first choices ;;
             message <~ py_item first (lit "message") ;;
             py_item message (lit "content"))
     else
       perform (logger_error
                  (lit "LLM API error: " ++ str_of_int (Response.status_code response)
                       ++ lit " - " ++ Response.text response)) ;;
       raise (Exception (lit "LLM response generation failed: "
                             ++ str_of_int (Response.status_code response))))
    (fun e =>
       perform (logger_error (lit "Error generating LLM response: " ++ exc_str e)) ;;
       raise e).
End Clients.

(** ** The metrics publisher and the handler *)

Section Orchestrator.
Context `{Runtime} (cfg : config).

(** The one measurement [publish_metrics] sends. *)
Definition metric_data (metric_name : pystr) (value : pyval) (unit : pystr)
  : pyval :=
  PList
    [PDict [(lit "MetricName", PStr metric_name);
            (lit "Value", value);
            (lit "Unit", PStr unit);
            (lit "Dimensions",
             PList [PDict [(lit "Name", PStr (lit "Environment"));
                           (lit "Value",
                            PStr (default (lit "dev")
                                    (environ cfg !! lit "ENVIRONMENT")))]])]].

Definition publish_metrics (metric_name : pystr) (value : pyval) (unit : pystr)
  : M () :=
  try_except
    (invoke (put_metric_data (lit "RAG/Application")
                             (metric_data metric_name value unit)))
    (fun e =>
       perform (logger_error (lit "Error publishing metrics: " ++ exc_str e))).

(** One entry of [sources]. *)
Definition source_entry (doc : pyval) : result pyval :=
  title <~ py_get doc (lit "title") (PStr (lit "Unknown")) ;;
  content <~ py_get doc (lit "content") (PStr (lit "")) ;;
  size <~ py_len content ;;
  content_preview <~
    (if (200 <? size)%nat then
       content <~ py_get doc (lit "content") (PStr (lit "")) ;;
       cut <~ py_prefix 200 content ;;
       py_add_str cut (lit "...")
     else py_get doc (lit "content") (PStr (lit ""))) ;;
  metadata <~ py_get doc (lit "metadata") (PDict []) ;;
  Ok (PDict [(lit "title", title);
             (lit "content_preview", content_preview);
             (lit "metadata", metadata)]).

Definition validation_response : response :=
  {| statusCode := 400;
     headers := json_cors_headers;
     body := json_dumps (PDict [(lit "error", PStr (lit "Query is required"))]) |}.

Definition no_documents_response : response :=
  {| statusCode := 200;
     headers := json_cors_headers;
     body :=
       json_dumps
         (PDict [(lit "answer",
                  PStr (lit "I could not find relevant information to answer your question."));
                 (lit "sources", PList [])]) |}.

Definition success_response (response_data : pyval) : response :=
  {| statusCode := 200;
     headers := json_cors_headers;
     body := json_dumps response_data |}.

(** [str(e) if os.environ.get('ENVIRONMENT') == 'dev' else '...'] *)
Definition error_message (e : exn) : pystr :=
  if decide (environ cfg !! lit "ENVIRONMENT" = Some (lit "dev"))
  then exc_str e
  else lit "An error occurred processing your request".

Definition error_response (e : exn) : response :=
  {| statusCode := 500;
     headers := json_cors_headers;
     body :=
       json_dumps
         (PDict [(lit "error", PStr (lit "Internal server error"));
                 (lit "message", PStr (error_message e))]) |}.

(** The handler's [try], from the first external call on: the query has
    passed validation. *)
Definition answer_query (start_time : Z) (query : pystr) : M response :=
  perform (logger_info (lit "Processing query: " ++ query)) ;;
  query_embedding <- generate_embedding cfg query ;;
  similar_docs <- search_similar_documents cfg query_embedding 5 ;;
  match similar_docs with
  | [] => ret no_documents_response
  | _ =>
      answer <- generate_rag_response cfg query similar_docs ;;
      sources <- lift (comprehension source_entry similar_docs) ;;
      let response_data :=
        PDict [(lit "answer", answer);
               (lit "sources", PList sources);
               (lit "query", PStr query)] in
      now <- perform get_remaining_time_in_millis ;;
      processing_time <- lift (true_div (start_time - now) 1000) ;;
      publish_metrics (lit "QueryProcessingTime") processing_time
                      (lit "Seconds") ;;
      publish_metrics (lit "DocumentsRetrieved")
                      (PInt (Z.of_nat (length similar_docs))) (lit "Count") ;;
      publish_metrics (lit "QueriesProcessed") (PInt 1) (lit "Count") ;;
      ret (success_response response_data)
  end.

(** The body of the handler's [try]: parse the request, validate the
    query, answer it. *)
Definition handler_try (event : pyval) (start_time : Z) : M response :=
  received <- lift (py_get event (lit "body") PNone) ;;
  body <- lift (if is_str received then
                  raw <~ py_item event (lit "body") ;; py_json_loads raw
                else py_get event (lit "body") (PDict [])) ;;
  query <- lift (field <~ py_get body (lit "query") (PStr (lit "")) ;;
                 py_strip field) ;;
  match query with
  | [] => ret validation_response
  | _ => answer_query start_time query
  end.

(** The [except] clause of the handler. *)
Definition handler_except (e : exn) : M response :=
  perform (logger_error (lit "Error processing query: " ++ exc_str e)) ;;
  publish_metrics (lit "QueryErrors") (PInt 1) (lit "Count") ;;
  ret (error_response e).

Definition lambda_handler (event : pyval) : M response :=
  start_time <- perform get_remaining_time_in_millis ;;
  try_except (handler_try event start_time) handler_except.
End Orchestrator.

(** ** A runtime and worlds for the examples

    [sample_dumps] writes compact JSON for the ASCII strings, integers and
    containers of the examples; [sample_runtime] decodes exactly the texts
    that encode one of the values it is given. *)

Module Samples.
Definition escape_char (c : N) : pystr :=
  if (c =? 34)%N then lit "\" ++ dquote
  else if (c =? 92)%N then lit "\\"
  else if (c =? 10)%N then lit "\n"
  else [c].

Definition quoted (s : pystr) : pystr :=
  dquote ++ concat (map escape_char s) ++ dquote.

Fixpoint sample_dumps (v : pyval) : pystr :=
  match v with
  | PNone => lit "null"
  | PBool true => lit "true"
  | PBool false => lit "false"
  | PInt n => str_of_int n
  | PFloat _ => lit "NaN"
  | PStr s => quoted s
  | PList l => lit "[" ++ join (lit ", ") (map sample_dumps l) ++ lit "]"
  | PDict d =>
      lit "{"
        ++ join (lit ", ")
             (map (fun kv => quoted (fst kv) ++ lit ": " ++ sample_dumps (snd kv)) d)
        ++ lit "}"
  end.

Definition sample_loads (known : list pyval) (s : pystr) : result pyval :=
  match find (fun v => bool_decide (sample_dumps v = s)) known with
  | Some v => Ok v
  | None =>
      Raise (Exn "JSONDecodeError" (lit "Expecting value: line 1 column 1 (char 0)"))
  end.

Definition sample_runtime (known : list pyval) : Runtime :=
  {| json_loads := sample_loads known;
     json_dumps := sample_dumps;
     py_repr := sample_dumps |}.

Definition sample_config (environment : option pystr) : config :=
  {| LLM_API_KEY_SECRET := lit "rag/llm-api-key";
     EXTERNAL_LLM_ENDPOINT := lit "https://api.openai.com/v1";
     environ :=
       match environment with
       | Some label =>
           <[lit "ENVIRONMENT" := label]>
             {[lit "VECTOR_INDEX_NAME" := lit "documents"]}
       | None => {[lit "VECTOR_INDEX_NAME" := lit "documents"]}
       end |}.

(** A world that answers by a fixed script; its clock loses 40 ms at
    every call. *)
Record script : Type := {
  secret : result pyval;
  embeddings : result Response.t;
  search : result pyval;
  chat : result Response.t;
  metrics : result ()
}.

Definition scripted (cfg : config) (s : script) : world :=
  fun X c h =>
    match c in call X return X with
    | get_secret_value _ => secret s
    | requests_post url _ _ _ =>
        if bool_decide (url = EXTERNAL_LLM_ENDPOINT cfg ++ lit "/embeddings")
        then embeddings s else chat s
    | opensearch_search _ _ => search s
    | put_metric_data _ _ => metrics s
    | get_remaining_time_in_millis => 30000 - 40 * Z.of_nat (length h)
    | logger_info _ => ()
    | logger_error _ => ()
    end.

Definition http_ok (payload : pyval) : result Response.t :=
  Ok {| Response.status_code := 200;
        Response.text := sample_dumps payload;
        Response.json := Ok payload |}.

Definition http_error (status : Z) (text : pystr) : result Response.t :=
  Ok {| Response.status_code := status;
        Response.text := text;
        Response.json :=
          Raise (Exn "JSONDecodeError"
                     (lit "Expecting value: line 1 column 1 (char 0)")) |}.

Definition api_secret : pyval := PDict [(lit "api_key", PStr (lit "sk-sample"))].

Definition secret_value : result pyval :=
  Ok (PDict [(lit "Name", PStr (lit "rag/llm-api-key"));
             (lit "SecretString", PStr (sample_dumps api_secret))]).

Definition embedding_payload : pyval :=
  PDict [(lit "data",
          PList [PDict [(lit "embedding", PList [PInt 1; PInt 0; PInt 2])]])].

Definition search_hits (docs : list pyval) : result pyval :=
  Ok (PDict [(lit "hits",
              PDict [(lit "hits",
                      PList (map (fun doc => PDict [(lit "_source", doc)]) docs))])]).

Definition chat_completion (answer : pystr) : pyval :=
  PDict [(lit "choices",
          PList [PDict [(lit "message",
                         PDict [(lit "role", PStr (lit "assistant"));
                                (lit "content", PStr answer)])]])].

Definition doc_rag : pyval :=
  PDict [(lit "title", PStr (lit "RAG"));
         (lit "content", PStr (lit "Retrieval-augmented generation."));
         (lit "metadata", PDict [(lit "page", PInt 3)])].

(** A document without a title, whose content has 210 characters. *)
Definition doc_long : pyval :=
  PDict [(lit "content", PStr (replicate 210 120%N))].

(** All services answer; the search finds [docs]. *)
Definition healthy (docs : list pyval) : script :=
  {| secret := secret_value;
     embeddings := http_ok embedding_payload;
     search := search_hits docs;
     chat := http_ok (chat_completion (lit "RAG combines retrieval and generation."));
     metrics := Ok () |}.

Definition outage : exn := Exn "EndpointConnectionError" (lit "metrics backend down").

(** The event [{"body": v}], and the same with the body as a raw string. *)
Definition structured_event (v : pyval) : pyval := PDict [(lit "body", v)].
Definition raw_event (raw : pystr) : pyval := PDict [(lit "body", PStr raw)].

Definition query_request (query : pystr) : pyval :=
  PDict [(lit "query", PStr query)].

Definition sample_rt : Runtime :=
  sample_runtime [api_secret; query_request (lit "  What is RAG?  ");
                  query_request (lit "   ")].

Definition dev_config : config := sample_config (Some (lit "dev")).
Definition prod_config : config := sample_config (Some (lit "prod")).

(** The embedding endpoint answers 503 with the body [text]. *)
Definition embeddings_down (text : pystr) : script :=
  {| secret := secret_value;
     embeddings := http_error 503 text;
     search := search_hits [];
     chat := http_error 503 text;
     metrics := Ok () |}.

(** The same script with the metrics backend failing. *)
Definition metrics_down (s : script) : script :=
  {| secret := secret s;
     embeddings := embeddings s;
     search := search s;
     chat := chat s;
     metrics := Raise outage |}.

(** The request of the specification's scenario, as a raw body. *)
Definition rag_question : pystr := lit "  What is RAG?  ".
Definition rag_event : pyval := raw_event (sample_dumps (query_request rag_question)).
Definition blank_event : pyval := raw_event (sample_dumps (query_request (lit "   "))).

(** A configuration without [VECTOR_INDEX_NAME]. *)
Definition no_index_config : config :=
  {| LLM_API_KEY_SECRET := lit "rag/llm-api-key";
     EXTERNAL_LLM_ENDPOINT := lit "https://api.openai.com/v1";
     environ := {[lit "ENVIRONMENT" := lit "dev"]} |}.

(** Scripts that differ from another in one answer. *)
Definition with_secret (answer : result pyval) (s : script) : script :=
  {| secret := answer;
     embeddings := embeddings s;
     search := search s;
     chat := chat s;
     metrics := metrics s |}.

Definition with_embeddings (answer : result Response.t) (s : script) : script :=
  {| secret := secret s;
     embeddings := answer;
     search := search s;
     chat := chat s;
     metrics := metrics s |}.

Definition with_search (answer : result pyval) (s : script) : script :=
  {| secret := secret s;
     embeddings := embeddings s;
     search := answer;
     chat := chat s;
     metrics := metrics s |}.

(** A secret that is stored as binary: it has no [SecretString]. *)
Definition binary_secret : result pyval :=
  Ok (PDict [(lit "Name", PStr (lit "rag/llm-api-key"));
             (lit "SecretBinary", PStr (lit "c2stc2FtcGxl"))]).

(** An answer of the index in which the second hit has no [_source]. *)
Definition hits_without_source : result pyval :=
  Ok (PDict [(lit "hits",
              PDict [(lit "hits",
                      PList [PDict [(lit "_source", doc_rag)];
                             PDict [(lit "_id", PStr (lit "7"))]])])]).

(** A document whose content is a number. *)
Definition doc_numeric : pyval :=
  PDict [(lit "title", PStr (lit "Count")); (lit "content", PInt 5)].
End Samples.

(** ** Classifying the calls of a run *)

(** The calls to the four services; the clock and the logger are not. *)
Definition is_service_call (i : invocation) : bool :=
  match i with
  | Invoke (get_secret_value _) | Invoke (requests_post _ _ _ _)
  | Invoke (opensearch_search _ _) | Invoke (put_metric_data _ _) => true
  | _ => false
  end.

Definition is_metric_call (i : invocation) : bool :=
  match i with
  | Invoke (put_metric_data _ _) => true
  | _ => false
  end.

(** The call to the answer-generation collaborator. *)
Definition is_generation_call (cfg : config) (i : invocation) : bool :=
  match i with
  | Invoke (requests_post url _ _ _) =>
      bool_decide (url = EXTERNAL_LLM_ENDPOINT cfg ++ lit "/chat/completions")
  | _ => false
  end.

(** Neither a metrics call nor the call to the generation endpoint. *)
Definition before_generation (cfg : config) (i : invocation) : Prop :=
  is_metric_call i = false /\ is_generation_call cfg i = false.

(** The name of the measurement a call publishes, if it publishes one. *)
Definition measurement_name (i : invocation) : option pystr :=
  match i with
  | Invoke (put_metric_data _ (PList (PDict datum :: _))) =>
      match lookup_key (lit "MetricName") datum with
      | Some (PStr name) => Some name
      | _ => None
      end
  | _ => None
  end.

(** How many times a trace publishes the measurement [name]. *)
Definition published (name : pystr) (trace : list invocation) : nat :=
  length (filter (fun i => measurement_name i = Some name) trace).

(** The call that publishes the error count: [QueryErrors], value 1. *)
Definition error_count_call (cfg : config) : invocation :=
  Invoke (put_metric_data (lit "RAG/Application")
            (metric_data cfg (lit "QueryErrors") (PInt 1) (lit "Count"))).

(** What [publish_metrics] logs after the backend answered. *)
Definition publish_log (answer : result ()) : list invocation :=
  match answer with
  | Ok _ => []
  | Raise e => [Invoke (logger_error (lit "Error publishing metrics: " ++ exc_str e))]
  end.

(** Every call a program can make, whatever the answers, satisfies [P]. *)
Inductive calls_in {A : Type} (P : invocation -> Prop) : prog A -> Prop :=
| calls_in_Ret (a : A) : calls_in P (Ret a)
| calls_in_Do {X : Type} (c : call X) (k : X -> prog A) :
    P (Invoke c) -> (forall x, calls_in P (k x)) -> calls_in P (Do c k).

(** Every run of the program ends with a result that satisfies [Q]. *)
Inductive results_in {A : Type} (Q : A -> Prop) : prog A -> Prop :=
| results_in_Ret (a : A) : Q a -> results_in Q (Ret a)
| results_in_Do {X : Type} (c : call X) (k : X -> prog A) :
    (forall x, results_in Q (k x)) -> results_in Q (Do c k).

(** Every run of the program ends with the result [r]. *)
Definition settled {A : Type} (r : A) : prog A -> Prop := results_in (eq r).

(** Every value the program returns satisfies [P]; it may also raise. *)
Definition returns {A : Type} (P : A -> Prop) : M A -> Prop :=
  results_in (fun r => match r with Ok a => P a | Raise _ => True end).

(** The program never raises, and every value it returns satisfies [P]. *)
Definition always_returns {A : Type} (P : A -> Prop) : M A -> Prop :=
  results_in (fun r => match r with Ok a => P a | Raise _ => False end).

(** The result of the program does not depend on what the metrics backend
    answers: until it first publishes it makes no metrics call, and from
    then on its result is settled. *)
Inductive metrics_blind {A : Type} : M A -> Prop :=
| blind_Ret (r : result A) : metrics_blind (Ret r)
| blind_Do {X : Type} (c : call X) (k : X -> M A) :
    is_metric_call (Invoke c) = false ->
    (forall x, metrics_blind (k x)) -> metrics_blind (Do c k)
| blind_settled (a : A) (p : M A) : settled (Ok a) p -> metrics_blind p.

(** Two worlds that differ at most in what the metrics backend answers. *)
Definition agree_off_metrics (w1 w2 : world) : Prop :=
  forall (X : Type) (c : call X) (h : list invocation),
    is_metric_call (Invoke c) = false -> w1 X c h = w2 X c h.

(** ** The inbound request, as the interface describes it

    The event carries a JSON object as its body, either as a raw string to
    be decoded once or already structured (or carries no body at all); the
    [query] field of that object is a string, or is absent. *)

Inductive inbound_body `{Runtime} : pyval -> list (pystr * pyval) -> Prop :=
| body_raw (items : list (pystr * pyval)) (raw : pystr) (d : list (pystr * pyval)) :
    lookup_key (lit "body") items = Some (PStr raw) ->
    json_loads raw = Ok (PDict d) ->
    inbound_body (PDict items) d
| body_structured (items d : list (pystr * pyval)) :
    lookup_key (lit "body") items = Some (PDict d) ->
    inbound_body (PDict items) d
| body_absent (items : list (pystr * pyval)) :
    lookup_key (lit "body") items = None ->
    inbound_body (PDict items) [].

Inductive query_field : list (pystr * pyval) -> pystr -> Prop :=
| query_present (d : list (pystr * pyval)) (q : pystr) :
    lookup_key (lit "query") d = Some (PStr q) -> query_field d q
| query_absent (d : list (pystr * pyval)) :
    lookup_key (lit "query") d = None -> query_field d [].

(** The trace of a request that passed validation with the query [query]:
    the clock was read and the query logged. *)
Definition validated_trace (query : pystr) : list invocation :=
  [Invoke get_remaining_time_in_millis;
   Invoke (logger_info (lit "Processing query: " ++ query))].

(** ** A retrieved document, as the data model describes it

    A record with an optional [title] (default ["Unknown"]), an optional
    [content] (default the empty string) that is a string, and [metadata]. *)

(** A field of a document, or the default when the document has none. *)
Definition doc_field (key : pystr) (dflt : pyval) (doc : pyval) : pyval :=
  match doc with
  | PDict d => default dflt (lookup_key key d)
  | _ => dflt
  end.

(** The content of a document, when the document is a record whose
    content is a string or is absent. *)
Definition doc_content (doc : pyval) : option pystr :=
  match doc with
  | PDict d =>
      match lookup_key (lit "content") d with
      | Some (PStr s) => Some s
      | Some _ => None
      | None => Some (lit "")
      end
  | _ => None
  end.

Definition is_record (doc : pyval) : Prop :=
  match doc with PDict _ => True | _ => False end.

(** The entry of [sources] for a document, with [shown] as the preview of
    its content. *)
Definition source_of (doc : pyval) (shown : pystr) : pyval :=
  PDict [(lit "title", doc_field (lit "title") (PStr (lit "Unknown")) doc);
         (lit "content_preview", PStr shown);
         (lit "metadata", doc_field (lit "metadata") (PDict []) doc)].

(** The preview of a content: its first 200 characters and an ellipsis
    when it is longer than 200 characters, else the content itself. *)
Definition preview (content : pystr) : pystr :=
  if (200 <? length content)%nat then take 200 content ++ lit "..." else content.

(** A document as the context block shows it:
    ["Document: {title}\n{content}"]. *)
Definition document_text `{Runtime} (doc : pyval) : pystr :=
  lit "Document: "
    ++ format_value (doc_field (lit "title") (PStr (lit "Unknown")) doc)
    ++ nl
    ++ format_value (doc_field (lit "content") (PStr (lit "")) doc).

(** ** Further descriptions of a run *)

(** What the [except] clause of a function that logs and re-raises adds to
    the trace when its [try] ended in [r]. *)
Definition failure_log {A : Type} (prefix : pystr) (r : result A)
  : list invocation :=
  match r with
  | Ok _ => []
  | Raise e => [Invoke (logger_error (prefix ++ exc_str e))]
  end.

Definition is_secret_call (i : invocation) : bool :=
  match i with Invoke (get_secret_value _) => true | _ => false end.

Definition is_search_call (i : invocation) : bool :=
  match i with Invoke (opensearch_search _ _) => true | _ => false end.

Definition is_post_call (i : invocation) : bool :=
  match i with Invoke (requests_post _ _ _ _) => true | _ => false end.

(** How many calls of a trace satisfy [P]. *)
Definition calls_of (P : invocation -> bool) (trace : list invocation) : nat :=
  length (List.filter P trace).

(** Whatever the answers, the program makes at most [n] calls that
    satisfy [P]. *)
Inductive at_most {A : Type} (P : invocation -> bool) : nat -> prog A -> Prop :=
| at_most_Ret (n : nat) (a : A) : at_most P n (Ret a)
| at_most_other (n : nat) {X : Type} (c : call X) (k : X -> prog A) :
    P (Invoke c) = false -> (forall x, at_most P n (k x)) -> at_most P n (Do c k)
| at_most_one_more (n : nat) {X : Type} (c : call X) (k : X -> prog A) :
    (forall x, at_most P n (k x)) -> at_most P (S n) (Do c k).

(** The request body [search_similar_documents] builds. *)
Definition search_body (query_embedding : pyval) (top_k : Z) : pyval :=
  PDict [(lit "size", PInt top_k);
         (lit "query",
          PDict [(lit "knn",
                  PDict [(lit "embedding",
                          PDict [(lit "vector", query_embedding);
                                 (lit "k", PInt top_k)])])]);
         (lit "_source",
          PList [PStr (lit "content"); PStr (lit "metadata"); PStr (lit "title")])].

(** The search hit that carries the document [doc]. *)
Definition hit_of (doc : pyval) : pyval := PDict [(lit "_source", doc)].

(** A metrics call of the handler: to the namespace [RAG/Application], one
    datum, named by one of the four measurements and tagged with the
    environment label ([dev] when there is none). *)
Definition tagged_measurement (cfg : config) (i : invocation) : Prop :=
  exists (name : pystr) (value : pyval) (unit : pystr),
    name ∈ [lit "QueryProcessingTime"; lit "DocumentsRetrieved";
            lit "QueriesProcessed"; lit "QueryErrors"]
    /\ i = Invoke
             (put_metric_data (lit "RAG/Application")
                (PList
                   [PDict [(lit "MetricName", PStr name);
                           (lit "Value", value);
                           (lit "Unit", PStr unit);
                           (lit "Dimensions",
                            PList [PDict [(lit "Name", PStr (lit "Environment"));
                                          (lit "Value",
                                           PStr (default (lit "dev")
                                                   (environ cfg !! lit "ENVIRONMENT")))]])]])).

(** The measurements a trace publishes, by name and in order. *)
Definition measurements (trace : list invocation) : list pystr :=
  omap measurement_name trace.

(** The values [len] refuses: [None], a [bool], an [int], a [float]. *)
Definition has_no_length (v : pyval) : Prop :=
  match v with
  | PNone | PBool _ | PInt _ | PFloat _ => True
  | _ => False
  end.

(** ** The context block, as the specification words it

    Each document is shown as [Document: {title}] and, on the next line,
    [{content}]; the documents follow one another in the order given, with a
    blank line between two of them. The title and the content of a document
    are strings; an absent title reads [Unknown], an absent content is
    empty. *)

(** The title of a document, when the document is a record whose title is
    a string or is absent. *)
Definition doc_title (doc : pyval) : option pystr :=
  match doc with
  | PDict d =>
      match lookup_key (lit "title") d with
      | Some (PStr s) => Some s
      | Some _ => None
      | None => Some (lit "Unknown")
      end
  | _ => None
  end.

(** The title and the content of each document of a list. *)
Definition documents_read (docs : list pyval) (texts : list (pystr * pystr)) : Prop :=
  Forall2 (fun doc text => doc_title doc = Some (fst text)
                           /\ doc_content doc = Some (snd text))
          docs texts.

(** Texts one after the other, each but the first after a blank line. *)
Definition blank_line_separated (texts : list pystr) : pystr :=
  match texts with
  | [] => []
  | first :: others => first ++ concat (map (fun text => nl ++ nl ++ text) others)
  end.

(** * Properties *)

(** ** Running programs *)

Section RunLemmas.
Context {A B : Type}.

Lemma run_bind (w : world) (p : M A) (f : A -> M B) h :
  run w (bind p f) h =
    match run w p h with
    | (Ok a, h') => run w (f a) h'
    | (Raise e, h') => (Raise e, h')
    end.
Proof.
  revert h. induction p as [[a|e]|X c k IH]; intros h; simpl; auto.
Qed.

Lemma run_try_except (w : world) (p : M A) (handler : exn -> M A) h :
  run w (try_except p handler) h =
    match run w p h with
    | (Ok a, h') => (Ok a, h')
    | (Raise e, h') => run w (handler e) h'
    end.
Proof.
  revert h. induction p as [[a|e]|X c k IH]; intros h; simpl; auto.
Qed.
End RunLemmas.

(** ** Validation *)

Section Validation.
Context `{Runtime} (cfg : config).

(** On a request of the documented shape the [try] reaches the validation
    of the stripped query without any external call. *)
Lemma handler_try_inbound (event : pyval) d q (start_time : Z) :
  inbound_body event d -> query_field d q ->
  handler_try cfg event start_time =
    match strip q with
    | [] => ret validation_response
    | _ => answer_query cfg start_time (strip q)
    end.
Proof.
  intros Hbody Hquery. unfold handler_try.
  destruct Hbody as [items raw d Hitem Hloads|items d Hitem|items Hitem];
    cbn [py_get py_item lift]; rewrite Hitem;
    cbn [default id is_str bind result_bind py_json_loads lift];
    rewrite ?Hloads; cbn [bind lift py_get result_bind].
  all: destruct Hquery as [d q Hq|d Hq]; rewrite ?Hq.
  all: cbn [default id py_strip lift bind]; reflexivity.
Qed.

(** X20. The validation path. An inbound event of the documented shape whose
    query is empty once stripped (absent, empty or only whitespace) gets the
    400 response with the body [{"error": "Query is required"}]; the run
    makes a single call, the reading of the clock at entry: no embedding,
    search or generation call, and no metric. *)
Theorem empty_query_is_rejected (w : world) (event : pyval) d q :
  inbound_body event d -> query_field d q -> strip q = [] ->
  run w (lambda_handler cfg event) [] =
    (Ok {| statusCode := 400;
           headers := json_cors_headers;
           body := json_dumps (PDict [(lit "error", PStr (lit "Query is required"))]) |},
     [Invoke get_remaining_time_in_millis])
  /\ Forall (fun i => is_service_call i = false)
            (snd (run w (lambda_handler cfg event) [])).
Proof.
  intros Hbody Hquery Hempty.
  assert (Hrun : run w (lambda_handler cfg event) [] =
                   (Ok validation_response, [Invoke get_remaining_time_in_millis])).
  { unfold lambda_handler. cbn [perform bind run app].
    rewrite run_try_except, (handler_try_inbound _ _ _ _ Hbody Hquery), Hempty.
    reflexivity. }
  split; [exact Hrun|]. rewrite Hrun. repeat constructor.
Qed.
End Validation.

(** ** The calls a program can make *)

Section Calls.
Context {A B : Type}.
Implicit Types P Q : invocation -> Prop.

Lemma calls_in_mono P Q (p : prog A) :
  (forall i, P i -> Q i) -> calls_in P p -> calls_in Q p.
Proof. intros HPQ. induction 1; constructor; auto. Qed.

Lemma calls_in_bind P (p : M A) (f : A -> M B) :
  calls_in P p -> (forall a, calls_in P (f a)) -> calls_in P (bind p f).
Proof.
  intros Hp Hf. induction Hp as [[a|e]|X c k Hc Hk IH]; cbn [bind].
  - apply Hf.
  - constructor.
  - constructor; auto.
Qed.

Lemma calls_in_try_except P (p : M A) (handler : exn -> M A) :
  calls_in P p -> (forall e, calls_in P (handler e)) ->
  calls_in P (try_except p handler).
Proof.
  intros Hp Hh. induction Hp as [[a|e]|X c k Hc Hk IH]; cbn [try_except].
  - constructor.
  - apply Hh.
  - constructor; auto.
Qed.

Lemma calls_in_lift P (r : result A) : calls_in P (lift r).
Proof. constructor. Qed.

Lemma calls_in_perform P (c : call A) : P (Invoke c) -> calls_in P (perform c).
Proof. intros Hc. constructor; [done|]. intros x. constructor. Qed.

Lemma calls_in_invoke P (c : call (result A)) :
  P (Invoke c) -> calls_in P (invoke c).
Proof. intros Hc. constructor; [done|]. intros x. constructor. Qed.

(** A run extends the trace by calls the program can make. *)
Lemma run_calls_in P (w : world) (p : prog A) h :
  calls_in P p -> exists t, snd (run w p h) = h ++ t /\ Forall P t.
Proof.
  intros Hp. revert h. induction Hp as [a|X c k Hc Hk IH]; intros h; cbn [run].
  - exists []. by rewrite app_nil_r.
  - destruct (IH (w X c h) (h ++ [Invoke c])) as (t & -> & Ht).
    exists (Invoke c :: t). split; [by rewrite <- app_assoc | by constructor].
Qed.

Lemma results_in_run (Q : A -> Prop) (w : world) (p : prog A) h :
  results_in Q p -> Q (fst (run w p h)).
Proof. intros Hp. revert h. induction Hp; intros h; cbn [run]; auto. Qed.

Lemma settled_run (r : A) (w : world) (p : prog A) h :
  settled r p -> fst (run w p h) = r.
Proof. intros Hp. symmetry. revert Hp. apply results_in_run. Qed.

Lemma settled_bind (a : A) (r : result B) (p : M A) (f : A -> M B) :
  settled (Ok a) p -> settled r (f a) -> settled r (bind p f).
Proof.
  intros Hp Hf. induction Hp as [? <-|X c k Hk IH]; cbn [bind]; [done|].
  constructor. auto.
Qed.

Lemma settled_try_except (a : A) (p : M A) (handler : exn -> M A) :
  settled (Ok a) p -> settled (Ok a) (try_except p handler).
Proof.
  intros Hp. induction Hp as [? <-|X c k Hk IH]; cbn [try_except].
  - by constructor.
  - constructor. auto.
Qed.

Lemma returns_bind (P : B -> Prop) (p : M A) (f : A -> M B) :
  (forall a, returns P (f a)) -> returns P (bind p f).
Proof.
  intros Hf. induction p as [[a|e]|X c k IH]; cbn [bind].
  - apply Hf.
  - by constructor.
  - constructor. auto.
Qed.

Lemma returns_ret (P : A -> Prop) (a : A) : P a -> returns P (ret a).
Proof. intros Ha. by constructor. Qed.

(** A [try] whose handler always returns, always returns. *)
Lemma always_returns_try_except (P : A -> Prop) (p : M A) (handler : exn -> M A) :
  returns P p -> (forall e, always_returns P (handler e)) ->
  always_returns P (try_except p handler).
Proof.
  intros Hp Hh. induction Hp as [[a|e] Ha|X c k Hk IH]; cbn [try_except].
  - by constructor.
  - apply Hh.
  - constructor. auto.
Qed.
End Calls.

Section Blind.
Context {A B : Type}.

Lemma blind_bind (p : M A) (f : A -> M B) :
  calls_in (fun i => is_metric_call i = false) p ->
  (forall a, metrics_blind (f a)) -> metrics_blind (bind p f).
Proof.
  intros Hp Hf. induction Hp as [[a|e]|X c k Hc Hk IH]; cbn [bind].
  - apply Hf.
  - constructor.
  - apply blind_Do; auto.
Qed.

Lemma blind_try_except (p : M A) (handler : exn -> M A) :
  metrics_blind p -> (forall e, metrics_blind (handler e)) ->
  metrics_blind (try_except p handler).
Proof.
  intros Hp Hh. induction Hp as [[a|e]|X c k Hc Hk IH|a p Hp]; cbn [try_except].
  - constructor.
  - apply Hh.
  - apply blind_Do; auto.
  - eapply blind_settled, settled_try_except, Hp.
Qed.

(** Worlds that differ only in the answers of the metrics backend give a
    metrics-blind program the same result. *)
Lemma blind_run (w1 w2 : world) (p : M A) h :
  agree_off_metrics w1 w2 -> metrics_blind p ->
  fst (run w1 p h) = fst (run w2 p h).
Proof.
  intros Hw Hp. revert h. induction Hp as [r|X c k Hc Hk IH|a p Hp]; intros h.
  - reflexivity.
  - cbn [run]. rewrite (Hw X c h Hc). apply IH.
  - by rewrite !(settled_run _ _ _ _ Hp).
Qed.
End Blind.

(** ** The calls of each function of the source *)

Ltac calls_step :=
  match goal with
  | |- calls_in _ (bind _ _) => apply calls_in_bind; [|intros ?]
  | |- calls_in _ (try_except _ _) => apply calls_in_try_except; [|intros ?]
  | |- calls_in _ (lift _) => apply calls_in_lift
  | |- calls_in _ (ret _) => constructor
  | |- calls_in _ (raise _) => constructor
  | |- calls_in _ (perform _) => apply calls_in_perform
  | |- calls_in _ (invoke _) => apply calls_in_invoke
  | |- calls_in _ (if ?b then _ else _) => destruct b
  | |- calls_in _ (match ?x with _ => _ end) => destruct x
  end.

Section FunctionCalls.
Context `{Runtime} (cfg : config).

Lemma embeddings_url_not_chat :
  EXTERNAL_LLM_ENDPOINT cfg ++ lit "/embeddings"
  <> EXTERNAL_LLM_ENDPOINT cfg ++ lit "/chat/completions".
Proof. intros Heq. apply app_inv_head in Heq. discriminate Heq. Qed.

Lemma get_secret_calls (secret_name : pystr) :
  calls_in (before_generation cfg) (get_secret secret_name).
Proof. unfold get_secret. repeat calls_step; by split. Qed.

Lemma generate_embedding_calls (text : pystr) :
  calls_in (before_generation cfg) (generate_embedding cfg text).
Proof.
  unfold generate_embedding.
  repeat first [apply get_secret_calls | calls_step]; try by split.
  split; [done|]. cbn [is_generation_call].
  apply bool_decide_eq_false, embeddings_url_not_chat.
Qed.

Lemma search_similar_documents_calls (query_embedding : pyval) (top_k : Z) :
  calls_in (before_generation cfg) (search_similar_documents cfg query_embedding top_k).
Proof. unfold search_similar_documents. repeat calls_step; by split. Qed.

Lemma generate_rag_response_calls (query : pystr) (docs : list pyval) :
  calls_in (fun i => is_metric_call i = false)
           (generate_rag_response cfg query docs).
Proof.
  unfold generate_rag_response.
  repeat first
    [ eapply calls_in_mono; [|apply get_secret_calls]; [by intros ? [? _]]
    | calls_step ]; done.
Qed.

(** [publish_metrics] makes one metrics call, for the measurement it is
    given, and logs. *)
Lemma publish_metrics_calls (name : pystr) (value : pyval) (unit : pystr) :
  calls_in (fun i => measurement_name i = Some name \/ is_metric_call i = false)
           (publish_metrics cfg name value unit).
Proof. unfold publish_metrics. repeat calls_step; auto. Qed.

Lemma publish_metrics_settled (name : pystr) (value : pyval) (unit : pystr) :
  settled (Ok ()) (publish_metrics cfg name value unit).
Proof.
  unfold publish_metrics, invoke, perform. cbn [try_except].
  constructor. intros [[]|e]; [by constructor|].
  constructor. intros []. by constructor.
Qed.
End FunctionCalls.

(** ** The shape of a run of the handler *)

Section HandlerShape.
Context `{Runtime} (cfg : config).

Lemma published_app (name : pystr) (t1 t2 : list invocation) :
  published name (t1 ++ t2) = (published name t1 + published name t2)%nat.
Proof. unfold published. by rewrite filter_app, length_app. Qed.

Lemma published_none (name : pystr) (t : list invocation) :
  Forall (fun i => measurement_name i <> Some name) t -> published name t = 0%nat.
Proof.
  unfold published. induction 1 as [|i t Hi Ht IH]; [done|].
  by rewrite filter_cons_False.
Qed.

Lemma publish_metrics_run (w : world) (name : pystr) (value : pyval) (unit : pystr) h :
  let c := put_metric_data (lit "RAG/Application") (metric_data cfg name value unit) in
  run w (publish_metrics cfg name value unit) h =
    (Ok (), h ++ Invoke c :: publish_log (w _ c h)).
Proof.
  intros c. unfold publish_metrics, invoke, perform. cbn [try_except run].
  fold c. destruct (w _ c h) as [[]|e]; cbn [run publish_log]; [reflexivity|].
  destruct (w _ (logger_error _) _). by rewrite <- app_assoc.
Qed.

(** The handler is its [try], and its [except] clause when the [try]
    raised. *)
Lemma lambda_handler_run (w : world) (event : pyval) :
  run w (lambda_handler cfg event) [] =
    match run w (handler_try cfg event (w _ get_remaining_time_in_millis []))
              [Invoke get_remaining_time_in_millis] with
    | (Ok resp, h) => (Ok resp, h)
    | (Raise e, h) => run w (handler_except cfg e) h
    end.
Proof. unfold lambda_handler. cbn [perform bind run]. apply run_try_except. Qed.

(** The [except] clause logs, publishes the error count once and returns
    the 500 response. *)
Lemma handler_except_run (w : world) (e : exn) h :
  let h1 := h ++ [Invoke (logger_error (lit "Error processing query: " ++ exc_str e))] in
  run w (handler_except cfg e) h =
    (Ok (error_response cfg e),
     h1 ++ error_count_call cfg
        :: publish_log (w _ (put_metric_data (lit "RAG/Application")
                               (metric_data cfg (lit "QueryErrors") (PInt 1) (lit "Count")))
                          h1)).
Proof.
  unfold handler_except. cbn [perform bind run].
  rewrite run_bind, publish_metrics_run. reflexivity.
Qed.

Lemma not_metric_not_measurement (name : pystr) (i : invocation) :
  is_metric_call i = false -> measurement_name i <> Some name.
Proof. by destruct i as [X []]. Qed.

Ltac other_measurement :=
  eapply calls_in_mono; [|apply publish_metrics_calls];
  intros ? [->|?]; [discriminate|by apply not_metric_not_measurement].

Ltac no_measurement lem :=
  eapply calls_in_mono; [|apply lem];
  first [intros ? [? _]|intros ? ?]; by apply not_metric_not_measurement.

(** The [try] never publishes the error count. *)
Lemma handler_try_calls (event : pyval) (start_time : Z) :
  calls_in (fun i => measurement_name i <> Some (lit "QueryErrors"))
           (handler_try cfg event start_time).
Proof.
  unfold handler_try, answer_query.
  repeat first
    [ no_measurement generate_embedding_calls
    | no_measurement search_similar_documents_calls
    | no_measurement generate_rag_response_calls
    | other_measurement
    | calls_step ]; done.
Qed.
End HandlerShape.

(** ** Every invocation ends in one response *)

Section Responses.
Context `{Runtime} (cfg : config).

Lemma results_in_mono {A : Type} (P Q : A -> Prop) (p : prog A) :
  (forall a, P a -> Q a) -> results_in P p -> results_in Q p.
Proof. intros HPQ. induction 1; constructor; auto. Qed.

Ltac returns_step :=
  match goal with
  | |- returns _ (bind _ _) => apply returns_bind; intros ?
  | |- returns _ (ret _) => apply returns_ret
  | |- returns _ (match ?x with _ => _ end) => destruct x
  end.

Lemma handler_try_returns (event : pyval) (start_time : Z) :
  returns (fun resp => headers resp = json_cors_headers
                       /\ (statusCode resp = 400 \/ statusCode resp = 200))
          (handler_try cfg event start_time).
Proof. unfold handler_try, answer_query. repeat returns_step; auto. Qed.

Lemma handler_except_settled (e : exn) :
  settled (Ok (error_response cfg e)) (handler_except cfg e).
Proof.
  unfold handler_except, perform. cbn [bind]. constructor. intros [].
  eapply settled_bind; [apply publish_metrics_settled|]. by constructor.
Qed.

Lemma lambda_handler_always_returns (event : pyval) :
  always_returns (fun resp => headers resp = json_cors_headers
                              /\ statusCode resp ∈ [400; 200; 500])
                 (lambda_handler cfg event).
Proof.
  unfold lambda_handler, perform. cbn [bind]. constructor. intros start_time.
  apply always_returns_try_except.
  - eapply results_in_mono; [|apply handler_try_returns].
    intros [resp|e]; [|done]. intros [? [->| ->]]; split; set_solver.
  - intros e. eapply results_in_mono; [|apply handler_except_settled].
    intros ? <-. split; [done|]. cbn. set_solver.
Qed.

(** C9. Whatever the event and whatever the collaborators answer, the
    handler returns a response, and that response (the 400, either 200 or
    the 500) carries [Content-Type: application/json] and
    [Access-Control-Allow-Origin: *]. *)
Theorem every_response_has_json_and_cors_headers (w : world) (event : pyval) :
  exists resp : response,
    fst (run w (lambda_handler cfg event) []) = Ok resp
    /\ statusCode resp ∈ [400; 200; 500]
    /\ headers resp = [(lit "Content-Type", lit "application/json");
                       (lit "Access-Control-Allow-Origin", lit "*")].
Proof.
  pose proof (results_in_run _ w _ [] (lambda_handler_always_returns event)) as Hr.
  destruct (fst (run w (lambda_handler cfg event) [])) as [resp|e]; [|done].
  exists resp. by destruct Hr.
Qed.
End Responses.

(** ** Failures *)

Section Failures.
Context `{Runtime} (cfg : config).

(** The run of the handler when its [try] raises. *)
Lemma lambda_handler_failure (w : world) (event : pyval) (e : exn) h :
  run w (handler_try cfg event (w _ get_remaining_time_in_millis []))
      [Invoke get_remaining_time_in_millis] = (Raise e, h) ->
  exists t,
    run w (lambda_handler cfg event) [] =
      (Ok (error_response cfg e),
       h ++ [Invoke (logger_error (lit "Error processing query: " ++ exc_str e));
             error_count_call cfg] ++ t)
    /\ Forall (fun i => is_metric_call i = false) t
    /\ published (lit "QueryErrors") h = 0%nat.
Proof.
  intros Htry. rewrite lambda_handler_run, Htry, handler_except_run.
  eexists. split; [by rewrite <- app_assoc|]. split.
  - match goal with |- context [publish_log ?a] => destruct a as [[]|?] end;
      cbn [publish_log]; repeat constructor.
  - pose proof (run_calls_in _ w _ [Invoke get_remaining_time_in_millis]
                  (handler_try_calls cfg event (w _ get_remaining_time_in_millis [])))
      as (t & Ht & Hnone).
    rewrite Htry in Ht. cbn [snd] in Ht. subst h.
    rewrite published_app, (published_none _ _ Hnone). reflexivity.
Qed.


(** C5. When the [try] raises [e], the message of the 500 response is the
    text of [e] if the environment label is [dev], the designated
    non-production label, and the fixed generic text otherwise; with any
    other label (or none) two failures get the same response, whatever
    their exceptions. *)
Theorem error_detail_only_outside_production (w : world) (event : pyval) (e : exn) h :
  run w (handler_try cfg event (w _ get_remaining_time_in_millis []))
      [Invoke get_remaining_time_in_millis] = (Raise e, h) ->
  let failure (message : pystr) : result response :=
    Ok {| statusCode := 500;
          headers := json_cors_headers;
          body :=
            json_dumps
              (PDict [(lit "error", PStr (lit "Internal server error"));
                      (lit "message", PStr message)]) |} in
  (environ cfg !! lit "ENVIRONMENT" = Some (lit "dev") ->
   fst (run w (lambda_handler cfg event) []) = failure (exc_str e))
  /\ (environ cfg !! lit "ENVIRONMENT" <> Some (lit "dev") ->
      fst (run w (lambda_handler cfg event) [])
      = failure (lit "An error occurred processing your request")
      /\ forall (w' : world) (event' : pyval) (e' : exn) h',
          run w' (handler_try cfg event' (w' _ get_remaining_time_in_millis []))
              [Invoke get_remaining_time_in_millis] = (Raise e', h') ->
          fst (run w' (lambda_handler cfg event') [])
          = fst (run w (lambda_handler cfg event) [])).
Proof.
  intros Htry failure.
  destruct (lambda_handler_failure w event e h Htry) as (t & -> & _).
  cbn [fst]. unfold failure, error_response, error_message. split.
  - intros Hdev. by rewrite decide_True.
  - intros Hprod. split; [by rewrite decide_False|].
    intros w' event' e' h' Htry'.
    destruct (lambda_handler_failure w' event' e' h' Htry') as (t' & -> & _).
    cbn [fst]. unfold error_response, error_message. by rewrite !decide_False.
Qed.

(** C10. A body that is a string but not valid JSON is an internal failure:
    the handler returns the 500 response, not the 400 one, after logging the
    decoding error and publishing the error count. *)
Theorem malformed_body_is_internal_error
    (w : world) (items : list (pystr * pyval)) (raw : pystr) (e : exn) :
  lookup_key (lit "body") items = Some (PStr raw) ->
  json_loads raw = Raise e ->
  let put := put_metric_data (lit "RAG/Application")
               (metric_data cfg (lit "QueryErrors") (PInt 1) (lit "Count")) in
  let logged := [Invoke get_remaining_time_in_millis;
                 Invoke (logger_error (lit "Error processing query: " ++ exc_str e))] in
  run w (lambda_handler cfg (PDict items)) [] =
    (Ok {| statusCode := 500;
           headers := json_cors_headers;
           body :=
             json_dumps
               (PDict [(lit "error", PStr (lit "Internal server error"));
                       (lit "message", PStr (error_message cfg e))]) |},
     logged ++ Invoke put :: publish_log (w _ put logged))
  /\ fst (run w (lambda_handler cfg (PDict items)) []) <> Ok validation_response.
Proof.
  intros Hitem Hloads put logged.
  assert (Htry : forall t, handler_try cfg (PDict items) t = raise e).
  { intros t. unfold handler_try. cbn [py_get py_item lift]. rewrite Hitem.
    cbn [default id is_str bind result_bind py_json_loads]. by rewrite Hloads. }
  rewrite lambda_handler_run, Htry. cbn [raise run].
  rewrite handler_except_run. split; [reflexivity|]. cbn [fst]. discriminate.
Qed.
End Failures.

(** ** The pipeline *)

Section Pipeline.
Context `{Runtime} (cfg : config).

(** The run of a request that passes validation. *)
Lemma lambda_handler_validated (w : world) (event : pyval) d q :
  inbound_body event d -> query_field d q -> strip q <> [] ->
  run w (lambda_handler cfg event) [] =
    match run w (answer_query cfg (w _ get_remaining_time_in_millis []) (strip q))
              [Invoke get_remaining_time_in_millis] with
    | (Ok resp, h) => (Ok resp, h)
    | (Raise e, h) => run w (handler_except cfg e) h
    end.
Proof.
  intros Hbody Hquery Hq.
  rewrite lambda_handler_run, (handler_try_inbound _ _ _ _ _ Hbody Hquery).
  by destruct (strip q).
Qed.

Lemma extends_with (P : invocation -> Prop) {A : Type} (w : world) (p : prog A)
    (a : A) h h' :
  calls_in P p -> run w p h = (a, h') -> Forall P h -> Forall P h'.
Proof.
  intros Hp Hrun Hh. destruct (run_calls_in P w p h Hp) as (t & Ht & HP).
  rewrite Hrun in Ht. cbn [snd] in Ht. subst h'. by apply Forall_app.
Qed.

(** C3. When the query passes validation, the embedding is obtained and the
    search returns no document, the handler returns the 200 response with
    the fixed answer and an empty list of sources, and its run ends with
    the search: the answer-generation endpoint is not called. *)
Theorem no_documents_short_circuit
    (w : world) (event : pyval) d q (query_embedding : pyval) h2 h3 :
  inbound_body event d -> query_field d q -> strip q <> [] ->
  run w (generate_embedding cfg (strip q)) (validated_trace (strip q))
    = (Ok query_embedding, h2) ->
  run w (search_similar_documents cfg query_embedding 5) h2 = (Ok [], h3) ->
  run w (lambda_handler cfg event) [] =
    (Ok {| statusCode := 200;
           headers := json_cors_headers;
           body :=
             json_dumps
               (PDict [(lit "answer",
                        PStr (lit "I could not find relevant information to answer your question."));
                       (lit "sources", PList [])]) |},
     h3)
  /\ Forall (fun i => is_generation_call cfg i = false) h3.
Proof.
  intros Hbody Hquery Hq Hemb Hsearch. split.
  - rewrite (lambda_handler_validated _ _ _ _ Hbody Hquery Hq).
    unfold answer_query. rewrite run_bind. cbn [perform run app].
    fold (validated_trace (strip q)).
    rewrite run_bind, Hemb, run_bind, Hsearch. reflexivity.
  - eapply (extends_with _ w _ _ h2 h3);
      [|exact Hsearch|eapply (extends_with _ w _ _ _ h2); [|exact Hemb|]].
    + eapply calls_in_mono; [|apply search_similar_documents_calls].
      by intros ? [_ ?].
    + eapply calls_in_mono; [|apply generate_embedding_calls].
      by intros ? [_ ?].
    + repeat constructor.
Qed.
End Pipeline.

(** ** Shaping the sources *)

Section Sources.
Context `{Runtime} (cfg : config).

Lemma comprehension_ok {A B : Type} (f : A -> result B) (g : A -> B) (l : list A) :
  Forall (fun x => f x = Ok (g x)) l -> comprehension f l = Ok (map g l).
Proof.
  induction 1 as [|x l Hx Hl IH]; cbn [comprehension map result_bind]; [done|].
  by rewrite Hx, IH.
Qed.

Lemma source_entry_document (doc : pyval) (content : pystr) :
  doc_content doc = Some content ->
  source_entry doc = Ok (source_of doc (preview content)).
Proof.
  destruct doc as [| | | | |l|d]; try discriminate. cbn [doc_content].
  unfold source_entry, source_of, preview. cbn [py_get doc_field result_bind].
  destruct (lookup_key (lit "content") d) as [[| | | |s| |]|]; try discriminate;
    intros [= <-]; cbn [default id py_len result_bind];
    destruct (200 <? _)%nat; reflexivity.
Qed.

Lemma preview_cases (content : pystr) :
  ((200 < length content)%nat -> preview content = take 200 content ++ lit "...")
  /\ ((length content <= 200)%nat -> preview content = content).
Proof.
  unfold preview. destruct (Nat.ltb_spec 200 (length content)); split; intros; (done || lia).
Qed.

(** C2. When the query passes validation, the embedding is obtained, the
    search returns at least one document and the generation succeeds, the
    handler returns the 200 response whose [sources] has one entry for each
    document returned by the search, in order; the [content_preview] of an
    entry is the first 200 characters of the document's content followed by
    [...] when that content is longer than 200 characters, and the content
    itself otherwise. The documents are records with a string content, and
    the elapsed time is a float. *)
Theorem sources_preview_each_document
    (w : world) (event : pyval) d q (query_embedding : pyval)
    (similar_docs : list pyval) (answer elapsed : pyval) h2 h3 h4 :
  inbound_body event d -> query_field d q -> strip q <> [] ->
  run w (generate_embedding cfg (strip q)) (validated_trace (strip q))
    = (Ok query_embedding, h2) ->
  run w (search_similar_documents cfg query_embedding 5) h2 = (Ok similar_docs, h3) ->
  similar_docs <> [] ->
  run w (generate_rag_response cfg (strip q) similar_docs) h3 = (Ok answer, h4) ->
  Forall (fun doc => is_Some (doc_content doc)) similar_docs ->
  true_div (w _ get_remaining_time_in_millis []
            - w _ get_remaining_time_in_millis h4) 1000 = Ok elapsed ->
  exists sources : list pyval,
    fst (run w (lambda_handler cfg event) []) =
      Ok {| statusCode := 200;
            headers := json_cors_headers;
            body :=
              json_dumps
                (PDict [(lit "answer", answer);
                        (lit "sources", PList sources);
                        (lit "query", PStr (strip q))]) |}
    /\ length sources = length similar_docs
    /\ forall (i : nat) (doc : pyval),
        similar_docs !! i = Some doc ->
        exists content shown : pystr,
          doc_content doc = Some content
          /\ sources !! i = Some (source_of doc shown)
          /\ ((200 < length content)%nat -> shown = take 200 content ++ lit "...")
          /\ ((length content <= 200)%nat -> shown = content).
Proof.
  intros Hbody Hquery Hq Hemb Hsearch Hdocs Hanswer Hcontent Helapsed.
  set (entry := fun doc => source_of doc (preview (default [] (doc_content doc)))).
  assert (Hsources : comprehension source_entry similar_docs = Ok (map entry similar_docs)).
  { apply comprehension_ok. eapply Forall_impl; [exact Hcontent|].
    intros doc [content Hdoc]. unfold entry. rewrite Hdoc.
    by apply source_entry_document. }
  exists (map entry similar_docs). split; [|split].
  - rewrite (lambda_handler_validated _ _ _ _ _ Hbody Hquery Hq).
    unfold answer_query. rewrite run_bind. cbn [perform run app].
    fold (validated_trace (strip q)).
    rewrite run_bind, Hemb, run_bind, Hsearch.
    destruct similar_docs as [|doc docs]; [done|].
    rewrite run_bind, Hanswer, Hsources. cbn [lift bind run perform].
    rewrite Helapsed. cbn [bind].
    repeat (rewrite run_bind, publish_metrics_run). reflexivity.
  - by rewrite length_map.
  - intros i doc Hi.
    destruct (proj1 (Forall_lookup _ _) Hcontent i doc Hi) as [content Hdoc].
    exists content, (preview content). split; [done|]. split.
    + rewrite list_lookup_fmap, Hi. cbn. unfold entry. by rewrite Hdoc.
    + apply preview_cases.
Qed.
End Sources.

(** ** The context block *)

Section ContextBlock.
Context `{Runtime} (cfg : config).

Lemma run_extends {A : Type} (w : world) (p : prog A) h :
  exists t, snd (run w p h) = h ++ t.
Proof.
  revert h. induction p as [a|X c k IH]; intros h; cbn [run].
  - exists []. by rewrite app_nil_r.
  - destruct (IH (w X c h) (h ++ [Invoke c])) as [t ->].
    exists (Invoke c :: t). by rewrite <- app_assoc.
Qed.

Lemma run_try_bind {A B : Type} (w : world) (p : M A) (f : A -> M B)
    (handler : exn -> M B) h :
  run w (try_except (bind p f) handler) h =
    match run w p h with
    | (Ok a, h') => run w (try_except (f a) handler) h'
    | (Raise e, h') => run w (handler e) h'
    end.
Proof.
  revert h. induction p as [[a|e]|X c k IH]; intros h; cbn [bind try_except run]; auto.
Qed.

Lemma render_document_record (doc : pyval) :
  is_record doc -> render_document doc = Ok (document_text doc).
Proof. by destruct doc. Qed.

Lemma context_block_records (docs : list pyval) :
  Forall is_record docs ->
  context_block docs = Ok (join (nl ++ nl) (map document_text docs)).
Proof.
  intros Hdocs. unfold context_block.
  rewrite (comprehension_ok _ document_text); [done|].
  eapply Forall_impl; [exact Hdocs|]. apply render_document_record.
Qed.

(** Once the credential is read, the context block of the documents,
    inside the prompt, is what is posted to the chat endpoint. *)
Lemma generate_rag_response_posts_context
    (w : world) (query : pystr) (docs : list pyval) (secret api_key : pyval)
    (context : pystr) h h1 :
  run w (get_secret (LLM_API_KEY_SECRET cfg)) h = (Ok secret, h1) ->
  py_item secret (lit "api_key") = Ok api_key ->
  context_block docs = Ok context ->
  exists t,
    snd (run w (generate_rag_response cfg query docs) h) =
      h1 ++ Invoke (requests_post
                      (EXTERNAL_LLM_ENDPOINT cfg ++ lit "/chat/completions")
                      (bearer_headers api_key)
                      (chat_payload (prompt_of context query)) 60) :: t.
Proof.
  intros Hsecret Hkey Hcontext.
  unfold generate_rag_response.
  rewrite run_try_bind, Hsecret. cbn [lift bind try_except].
  rewrite Hkey, Hcontext. cbn [bind invoke try_except run].
  match goal with
  | |- context [run w ?p (h1 ++ [?c])] =>
      destruct (run_extends w p (h1 ++ [c])) as [t ->]
  end.
  exists t. by rewrite <- app_assoc.
Qed.

Lemma join_blank_line_separated (texts : list pystr) :
  join (nl ++ nl) texts = blank_line_separated texts.
Proof.
  destruct texts as [|first others]; [done|]. cbn [blank_line_separated].
  revert first. induction others as [|second others IH]; intros first.
  - cbn [join map concat]. by rewrite app_nil_r.
  - change (join (nl ++ nl) (first :: second :: others))
      with (first ++ (nl ++ nl) ++ join (nl ++ nl) (second :: others)).
    rewrite IH. cbn [map concat]. by rewrite <- !app_assoc.
Qed.

Lemma render_document_read (doc : pyval) (title content : pystr) :
  doc_title doc = Some title -> doc_content doc = Some content ->
  render_document doc = Ok (lit "Document: " ++ title ++ nl ++ content).
Proof.
  destruct doc as [| | | | | |d]; try discriminate.
  unfold doc_title, doc_content, render_document. cbn [py_get result_bind].
  destruct (lookup_key (lit "title") d) as [[| | | |t| |]|]; try discriminate;
    destruct (lookup_key (lit "content") d) as [[| | | |c| |]|]; try discriminate;
    by intros [= <-] [= <-].
Qed.

Lemma context_block_read (docs : list pyval) (texts : list (pystr * pystr)) :
  documents_read docs texts ->
  context_block docs =
    Ok (blank_line_separated
          (map (fun text => lit "Document: " ++ fst text ++ nl ++ snd text) texts)).
Proof.
  intros Hdocs. unfold context_block.
  assert (Hparts : comprehension render_document docs =
                     Ok (map (fun text => lit "Document: " ++ fst text ++ nl ++ snd text)
                           texts)).
  { induction Hdocs as [|doc text docs texts [Htitle Hcontent] Hdocs IH];
      cbn [comprehension map result_bind]; [done|].
    by rewrite (render_document_read doc _ _ Htitle Hcontent), IH. }
  rewrite Hparts. cbn [result_bind]. by rewrite join_blank_line_separated.
Qed.

(** C6. For every query and every list of retrieved documents, with their
    titles and contents (an absent title read as [Unknown], an absent
    content as the empty string), the context block is, in the order of the
    list, [Document: {title}], a newline and [{content}] for each document,
    with a blank line between two documents. Once the credential is read,
    the user message posted to the answer-generation endpoint is the prompt
    that holds this block, between [Context:] and the question. *)
Theorem context_block_renders_documents_in_order
    (w : world) (query : pystr) (docs : list pyval) (texts : list (pystr * pystr))
    (secret api_key : pyval) h h1 :
  documents_read docs texts ->
  run w (get_secret (LLM_API_KEY_SECRET cfg)) h = (Ok secret, h1) ->
  py_item secret (lit "api_key") = Ok api_key ->
  let context :=
    blank_line_separated
      (map (fun text => lit "Document: " ++ fst text ++ nl ++ snd text) texts) in
  context_block docs = Ok context
  /\ exists t,
      snd (run w (generate_rag_response cfg query docs) h) =
        h1 ++ Invoke
                (requests_post
                   (EXTERNAL_LLM_ENDPOINT cfg ++ lit "/chat/completions")
                   (bearer_headers api_key)
                   (PDict
                      [(lit "model", PStr (lit "gpt-4"));
                       (lit "messages",
                        PList
                          [PDict [(lit "role", PStr (lit "system"));
                                  (lit "content",
                                   PStr (lit "You are a helpful assistant that answers questions based on provided context."))];
                           PDict [(lit "role", PStr (lit "user"));
                                  (lit "content",
                                   PStr (lit "Based on the following context, answer the user's question. If the answer cannot be found in the context, say so clearly."
                                           ++ nl ++ nl ++ lit "Context:" ++ nl
                                           ++ context ++ nl ++ nl
                                           ++ lit "Question: " ++ query ++ nl ++ nl
                                           ++ lit "Answer:"))]]);
                       (lit "max_tokens", PInt 500);
                       (lit "temperature",
                        PFloat (S754_finite false 6305039478318694 (-53)))])
                   60) :: t.
Proof.
  intros Hdocs Hsecret Hkey context.
  pose proof (context_block_read docs texts Hdocs) as Hcontext. fold context in Hcontext.
  split; [exact Hcontext|].
  exact (generate_rag_response_posts_context w query docs secret api_key context h h1
           Hsecret Hkey Hcontext).
Qed.
End ContextBlock.

(** ** Metrics are best effort *)

Section Metrics.
Context `{Runtime} (cfg : config).

Ltac no_metric_calls :=
  first
    [ eapply calls_in_mono; [|apply generate_embedding_calls]; by intros ? [? _]
    | eapply calls_in_mono; [|apply search_similar_documents_calls]; by intros ? [? _]
    | apply generate_rag_response_calls
    | apply calls_in_lift
    | by apply calls_in_perform ].

Lemma publish_then_settled {A : Type} (a : A) (name : pystr) (value : pyval)
    (unit : pystr) (rest : M A) :
  settled (Ok a) rest ->
  settled (Ok a) (publish_metrics cfg name value unit ;; rest).
Proof. intros Hrest. eapply settled_bind; [apply publish_metrics_settled|done]. Qed.

Lemma answer_query_blind (start_time : Z) (query : pystr) :
  metrics_blind (answer_query cfg start_time query).
Proof.
  unfold answer_query.
  apply blind_bind; [no_metric_calls|intros _].
  apply blind_bind; [no_metric_calls|intros query_embedding].
  apply blind_bind; [no_metric_calls|intros similar_docs].
  destruct similar_docs as [|doc docs]; [constructor|].
  apply blind_bind; [no_metric_calls|intros answer].
  apply blind_bind; [no_metric_calls|intros sources].
  apply blind_bind; [no_metric_calls|intros now].
  apply blind_bind; [no_metric_calls|intros processing_time].
  eapply blind_settled. repeat apply publish_then_settled. by constructor.
Qed.

Lemma lambda_handler_blind (event : pyval) :
  metrics_blind (lambda_handler cfg event).
Proof.
  unfold lambda_handler, perform. cbn [bind]. apply blind_Do; [done|].
  intros start_time. apply blind_try_except.
  - unfold handler_try.
    do 3 (apply blind_bind; [no_metric_calls|intros ?]).
    match goal with |- metrics_blind (match ?x with _ => _ end) => destruct x end.
    + constructor.
    + apply answer_query_blind.
  - intros e. eapply blind_settled, handler_except_settled.
Qed.

(** C8. [publish_metrics] returns normally whatever the metrics backend
    does: it makes the call and, when the call raises, logs the failure
    and nothing more. Hence two worlds that differ only in what the metrics
    backend answers get the same response from the handler. *)
Theorem publish_metrics_never_raises :
  (forall (w : world) (name : pystr) (value : pyval) (unit : pystr) h,
      let put := put_metric_data (lit "RAG/Application")
                   (metric_data cfg name value unit) in
      run w (publish_metrics cfg name value unit) h =
        (Ok (),
         h ++ Invoke put ::
           match w _ put h with
           | Ok _ => []
           | Raise e =>
               [Invoke (logger_error (lit "Error publishing metrics: " ++ exc_str e))]
           end))
  /\ (forall (w1 w2 : world) (event : pyval),
        agree_off_metrics w1 w2 ->
        fst (run w1 (lambda_handler cfg event) [])
        = fst (run w2 (lambda_handler cfg event) [])).
Proof.
  split.
  - intros w name value unit h. apply publish_metrics_run.
  - intros w1 w2 event Hagree. apply blind_run; [done|apply lambda_handler_blind].
Qed.
End Metrics.

(** ** The embedding client *)

Section Embedding.
Context `{Runtime} (cfg : config).

(** C7, as the code has it. Once the credential is read and the endpoint
    has answered: on a status other than 200 the client logs the status and
    the body of the response, and raises an error whose text carries the
    status only; on status 200 it returns the embedding of the first entry
    of [data] in the payload. *)
Theorem embedding_error_carries_status
    (w : world) (text : pystr) (secret api_key : pyval) (resp : Response.t) h h1 :
  let post :=
    requests_post (EXTERNAL_LLM_ENDPOINT cfg ++ lit "/embeddings")
      (bearer_headers api_key)
      (PDict [(lit "input", PStr text);
              (lit "model", PStr (lit "text-embedding-ada-002"))]) 30 in
  run w (get_secret (LLM_API_KEY_SECRET cfg)) h = (Ok secret, h1) ->
  py_item secret (lit "api_key") = Ok api_key ->
  w _ post h1 = Ok resp ->
  (Response.status_code resp <> 200 ->
   let failure := lit "Embedding generation failed: "
                    ++ str_of_int (Response.status_code resp) in
   run w (generate_embedding cfg text) h =
     (Raise (Exception failure),
      h1 ++ [Invoke post;
             Invoke (logger_error
                       (lit "Embedding API error: "
                          ++ str_of_int (Response.status_code resp)
                          ++ lit " - " ++ Response.text resp));
             Invoke (logger_error (lit "Error generating embedding: " ++ failure))]))
  /\ (Response.status_code resp = 200 ->
      forall (payload first embedding : pyval) (rest : list pyval),
        Response.json resp = Ok payload ->
        py_item payload (lit "data") = Ok (PList (first :: rest)) ->
        py_item first (lit "embedding") = Ok embedding ->
        run w (generate_embedding cfg text) h = (Ok embedding, h1 ++ [Invoke post])).
Proof.
  intros post Hsecret Hkey Hpost.
  assert (Hrun : run w (generate_embedding cfg text) h =
                   run w (try_except
                            (if Response.status_code resp =? 200 then
                               lift (j <~ Response.json resp ;;
                                     data <~ py_item j (lit "data") ;;
                                     first <~ py_first data ;;
                                     py_item first (lit "embedding"))
                             else
                               perform (logger_error
                                          (lit "Embedding API error: "
                                             ++ str_of_int (Response.status_code resp)
                                             ++ lit " - " ++ Response.text resp)) ;;
                               raise (Exception (lit "Embedding generation failed: "
                                                   ++ str_of_int (Response.status_code resp))))
                            (fun e =>
                               perform (logger_error (lit "Error generating embedding: "
                                                        ++ exc_str e)) ;;
                               raise e))
                       (h1 ++ [Invoke post])).
  { unfold generate_embedding. rewrite run_try_bind, Hsecret.
    cbn [lift bind try_except]. rewrite Hkey. cbn [bind invoke try_except run].
    fold post. rewrite Hpost. reflexivity. }
  rewrite Hrun. split.
  - intros Hstatus failure.
    rewrite (proj2 (Z.eqb_neq _ _) Hstatus).
    cbn [perform raise bind try_except run exc_str Exception].
    by rewrite <- !app_assoc.
  - intros Hstatus payload first embedding rest Hjson Hdata Hfirst.
    rewrite (proj2 (Z.eqb_eq _ _) Hstatus), Hjson.
    cbn [result_bind]. rewrite Hdata. cbn [result_bind py_first]. rewrite Hfirst.
    reflexivity.
Qed.
End Embedding.

(** ** The environment label *)

(** Without an [ENVIRONMENT] variable the measurements are tagged [dev],
    the default of [publish_metrics], while the handler keeps the generic
    message: only the label [dev] itself exposes the detail. *)
Lemma unset_environment_label (cfg : config) (e : exn)
    (name : pystr) (value : pyval) (unit : pystr) :
  environ cfg !! lit "ENVIRONMENT" = None ->
  error_message cfg e = lit "An error occurred processing your request"
  /\ metric_data cfg name value unit =
       PList
         [PDict [(lit "MetricName", PStr name);
                 (lit "Value", value);
                 (lit "Unit", PStr unit);
                 (lit "Dimensions",
                  PList [PDict [(lit "Name", PStr (lit "Environment"));
                                (lit "Value", PStr (lit "dev"))]])]].
Proof.
  intros Hunset. unfold error_message, metric_data. rewrite Hunset.
  split; [by rewrite decide_False|reflexivity].
Qed.

(** ** The properties at sample requests *)

Import Samples.

Lemma empty_query_is_rejected_witness :
  run (scripted dev_config (healthy [doc_rag]))
      (lambda_handler (H := sample_rt) dev_config blank_event) [] =
    (Ok {| statusCode := 400;
           headers := json_cors_headers;
           body := sample_dumps (PDict [(lit "error", PStr (lit "Query is required"))]) |},
     [Invoke get_remaining_time_in_millis])
  /\ Forall (fun i => is_service_call i = false)
            (snd (run (scripted dev_config (healthy [doc_rag]))
                      (lambda_handler (H := sample_rt) dev_config blank_event) [])).
Proof.
  apply (empty_query_is_rejected (H := sample_rt) dev_config
           (scripted dev_config (healthy [doc_rag])) blank_event
           [(lit "query", PStr (lit "   "))] (lit "   ")).
  - eapply body_raw; [reflexivity|vm_compute; reflexivity].
  - apply query_present. reflexivity.
  - reflexivity.
Defined.

(** The body of the 400 response, as text. *)
Example validation_body_text :
  body (validation_response (H := sample_rt))
  = lit "{" ++ dquote ++ lit "error" ++ dquote ++ lit ": " ++ dquote
      ++ lit "Query is required" ++ dquote ++ lit "}".
Proof. reflexivity. Qed.

Lemma sources_preview_each_document_witness :
  exists sources : list pyval,
    fst (run (scripted dev_config (healthy [doc_rag; doc_long]))
             (lambda_handler (H := sample_rt) dev_config rag_event) []) =
      Ok {| statusCode := 200;
            headers := json_cors_headers;
            body :=
              sample_dumps
                (PDict [(lit "answer", PStr (lit "RAG combines retrieval and generation."));
                        (lit "sources", PList sources);
                        (lit "query", PStr (strip rag_question))]) |}
    /\ length sources = length [doc_rag; doc_long]
    /\ forall (i : nat) (doc : pyval),
        [doc_rag; doc_long] !! i = Some doc ->
        exists content shown : pystr,
          doc_content doc = Some content
          /\ sources !! i = Some (source_of doc shown)
          /\ ((200 < length content)%nat -> shown = take 200 content ++ lit "...")
          /\ ((length content <= 200)%nat -> shown = content).
Proof.
  eapply (sources_preview_each_document (H := sample_rt) dev_config
            (scripted dev_config (healthy [doc_rag; doc_long])) rag_event
            [(lit "query", PStr rag_question)] rag_question).
  - eapply body_raw; [reflexivity|vm_compute; reflexivity].
  - apply query_present. reflexivity.
  - discriminate.
  - vm_compute. reflexivity.
  - vm_compute. reflexivity.
  - discriminate.
  - vm_compute. reflexivity.
  - repeat constructor; by eexists.
  - vm_compute. reflexivity.
Defined.

Lemma no_documents_short_circuit_witness :
  exists h3 : list invocation,
    run (scripted dev_config (healthy []))
        (lambda_handler (H := sample_rt) dev_config rag_event) [] =
      (Ok {| statusCode := 200;
             headers := json_cors_headers;
             body :=
               sample_dumps
                 (PDict [(lit "answer",
                          PStr (lit "I could not find relevant information to answer your question."));
                         (lit "sources", PList [])]) |},
       h3)
    /\ Forall (fun i => is_generation_call dev_config i = false) h3.
Proof.
  eexists.
  eapply (no_documents_short_circuit (H := sample_rt) dev_config
            (scripted dev_config (healthy [])) rag_event
            [(lit "query", PStr rag_question)] rag_question).
  - eapply body_raw; [reflexivity|vm_compute; reflexivity].
  - apply query_present. reflexivity.
  - discriminate.
  - vm_compute. reflexivity.
  - vm_compute. reflexivity.
Defined.


Lemma error_detail_only_outside_production_witness :
  let event := structured_event (query_request (lit "What is RAG?")) in
  let failure (message : pystr) : result response :=
    Ok {| statusCode := 500;
          headers := json_cors_headers;
          body :=
            sample_dumps
              (PDict [(lit "error", PStr (lit "Internal server error"));
                      (lit "message", PStr message)]) |} in
  fst (run (scripted dev_config (embeddings_down (lit "overloaded")))
           (lambda_handler (H := sample_rt) dev_config event) [])
  = failure (lit "Embedding generation failed: 503")
  /\ fst (run (scripted prod_config (embeddings_down (lit "overloaded")))
             (lambda_handler (H := sample_rt) prod_config event) [])
     = failure (lit "An error occurred processing your request").
Proof.
  intros event failure. split.
  - refine (proj1 (error_detail_only_outside_production (H := sample_rt) dev_config
                     (scripted dev_config (embeddings_down (lit "overloaded")))
                     event (Exception (lit "Embedding generation failed: 503")) _ _) _).
    + vm_compute. reflexivity.
    + reflexivity.
  - refine (proj1 (proj2 (error_detail_only_outside_production (H := sample_rt) prod_config
                            (scripted prod_config (embeddings_down (lit "overloaded")))
                            event (Exception (lit "Embedding generation failed: 503")) _ _)
                     _)).
    + vm_compute. reflexivity.
    + vm_compute. discriminate.
Defined.

Lemma context_block_renders_documents_in_order_witness :
  let docs := [doc_rag; doc_long] in
  let context :=
    lit "Document: RAG" ++ nl ++ lit "Retrieval-augmented generation."
      ++ nl ++ nl
      ++ lit "Document: Unknown" ++ nl ++ replicate 210 120%N in
  context_block (H := sample_rt) docs = Ok context
  /\ exists t,
      snd (run (scripted dev_config (healthy docs))
               (generate_rag_response (H := sample_rt) dev_config (lit "What is RAG?") docs)
               []) =
        [Invoke (get_secret_value (lit "rag/llm-api-key"))]
          ++ Invoke
               (requests_post
                  (lit "https://api.openai.com/v1/chat/completions")
                  (bearer_headers (H := sample_rt) (PStr (lit "sk-sample")))
                  (PDict
                     [(lit "model", PStr (lit "gpt-4"));
                      (lit "messages",
                       PList
                         [PDict [(lit "role", PStr (lit "system"));
                                 (lit "content",
                                  PStr (lit "You are a helpful assistant that answers questions based on provided context."))];
                          PDict [(lit "role", PStr (lit "user"));
                                 (lit "content",
                                  PStr (lit "Based on the following context, answer the user's question. If the answer cannot be found in the context, say so clearly."
                                          ++ nl ++ nl ++ lit "Context:" ++ nl
                                          ++ context ++ nl ++ nl
                                          ++ lit "Question: What is RAG?" ++ nl ++ nl
                                          ++ lit "Answer:"))]]);
                      (lit "max_tokens", PInt 500);
                      (lit "temperature",
                       PFloat (S754_finite false 6305039478318694 (-53)))])
                  60) :: t.
Proof.
  intros docs context.
  apply (context_block_renders_documents_in_order (H := sample_rt) dev_config
           (scripted dev_config (healthy docs)) (lit "What is RAG?") docs
           [(lit "RAG", lit "Retrieval-augmented generation.");
            (lit "Unknown", replicate 210 120%N)]
           api_secret (PStr (lit "sk-sample")) []
           [Invoke (get_secret_value (lit "rag/llm-api-key"))]).
  - repeat constructor.
  - vm_compute. reflexivity.
  - reflexivity.
Defined.

(** Two documents in the context block: a blank line between them, the
    default title on the second. *)
Example context_block_text :
  context_block (H := sample_rt)
    [doc_rag; PDict [(lit "content", PStr (lit "Second."))]]
  = Ok (lit "Document: RAG" ++ nl ++ lit "Retrieval-augmented generation."
          ++ nl ++ nl
          ++ lit "Document: Unknown" ++ nl ++ lit "Second.").
Proof. reflexivity. Qed.

Lemma embedding_error_carries_status_witness :
  let w := scripted dev_config (embeddings_down (lit "overloaded")) in
  let post :=
    requests_post (EXTERNAL_LLM_ENDPOINT dev_config ++ lit "/embeddings")
      (bearer_headers (H := sample_rt) (PStr (lit "sk-sample")))
      (PDict [(lit "input", PStr (lit "What is RAG?"));
              (lit "model", PStr (lit "text-embedding-ada-002"))]) 30 in
  run w (generate_embedding (H := sample_rt) dev_config (lit "What is RAG?")) [] =
    (Raise (Exception (lit "Embedding generation failed: " ++ str_of_int 503)),
     [Invoke (get_secret_value (lit "rag/llm-api-key"))]
       ++ [Invoke post;
           Invoke (logger_error
                     (lit "Embedding API error: " ++ str_of_int 503
                        ++ lit " - " ++ lit "overloaded"));
           Invoke (logger_error
                     (lit "Error generating embedding: "
                        ++ (lit "Embedding generation failed: " ++ str_of_int 503)))]).
Proof.
  intros w post.
  refine (proj1 (embedding_error_carries_status (H := sample_rt) dev_config w
                   (lit "What is RAG?") api_secret (PStr (lit "sk-sample"))
                   {| Response.status_code := 503;
                      Response.text := lit "overloaded";
                      Response.json :=
                        Raise (Exn "JSONDecodeError"
                                   (lit "Expecting value: line 1 column 1 (char 0)")) |}
                   [] [Invoke (get_secret_value (lit "rag/llm-api-key"))] _ _ _) _).
  - vm_compute. reflexivity.
  - reflexivity.
  - vm_compute. reflexivity.
  - discriminate.
Defined.

(** C7 as the specification states it fails: two answers of the embedding
    endpoint with the same status and different bodies raise the same
    error, so the error does not carry the body. *)
Lemma embedding_error_omits_body :
  let failure (text : pystr) : result pyval :=
    fst (run (scripted dev_config (embeddings_down text))
             (generate_embedding (H := sample_rt) dev_config (lit "What is RAG?")) []) in
  failure (lit "overloaded")
  = Raise (Exception (lit "Embedding generation failed: 503"))
  /\ failure (lit "maintenance")
     = Raise (Exception (lit "Embedding generation failed: 503"))
  /\ lit "overloaded" <> lit "maintenance".
Proof. split; [|split]; [vm_compute; reflexivity..|discriminate]. Qed.

Lemma publish_metrics_never_raises_witness :
  let event := rag_event in
  fst (run (scripted dev_config (healthy [doc_rag]))
           (lambda_handler (H := sample_rt) dev_config event) [])
  = fst (run (scripted dev_config (metrics_down (healthy [doc_rag])))
             (lambda_handler (H := sample_rt) dev_config event) []).
Proof.
  intros event.
  apply (proj2 (publish_metrics_never_raises (H := sample_rt) dev_config)).
  intros X c h Hc. destruct c; (reflexivity || discriminate Hc).
Defined.

Lemma malformed_body_is_internal_error_witness :
  let w := scripted prod_config (healthy [doc_rag]) in
  let e := Exn "JSONDecodeError" (lit "Expecting value: line 1 column 1 (char 0)") in
  let put := put_metric_data (lit "RAG/Application")
               (metric_data prod_config (lit "QueryErrors") (PInt 1) (lit "Count")) in
  let logged := [Invoke get_remaining_time_in_millis;
                 Invoke (logger_error (lit "Error processing query: " ++ exc_str e))] in
  run w (lambda_handler (H := sample_rt) prod_config (raw_event (lit "{query: ")) ) [] =
    (Ok {| statusCode := 500;
           headers := json_cors_headers;
           body :=
             sample_dumps
               (PDict [(lit "error", PStr (lit "Internal server error"));
                       (lit "message", PStr (error_message prod_config e))]) |},
     logged ++ Invoke put :: publish_log (w _ put logged))
  /\ fst (run w (lambda_handler (H := sample_rt) prod_config (raw_event (lit "{query: "))) [])
     <> Ok (validation_response (H := sample_rt)).
Proof.
  intros w e put logged.
  apply (malformed_body_is_internal_error (H := sample_rt) prod_config w
           [(lit "body", PStr (lit "{query: "))] (lit "{query: ") e).
  - reflexivity.
  - vm_compute. reflexivity.
Defined.

(** The scenario of the specification: the query ["  What is RAG?  "], two
    documents found, the answer generated. *)
Example rag_scenario :
  fst (run (scripted dev_config (healthy [doc_rag; doc_long]))
           (lambda_handler (H := sample_rt) dev_config rag_event) [])
  = Ok {| statusCode := 200;
          headers := json_cors_headers;
          body :=
            sample_dumps
              (PDict [(lit "answer", PStr (lit "RAG combines retrieval and generation."));
                      (lit "sources",
                       PList [source_of doc_rag (lit "Retrieval-augmented generation.");
                              source_of doc_long (replicate 200 120%N ++ lit "...")]);
                      (lit "query", PStr (lit "What is RAG?"))]) |}.
Proof. vm_compute. reflexivity. Qed.

(** An event whose body is [null], and a query that is not a string, are
    internal failures: the handler calls [get] on [None], and [strip] on the
    value. *)
Example null_body_is_internal_error :
  fst (run (scripted dev_config (healthy [doc_rag]))
           (lambda_handler (H := sample_rt) dev_config (structured_event PNone)) [])
  = Ok (error_response (H := sample_rt) dev_config
          (AttributeError PNone "get"))
  /\ fst (run (scripted dev_config (healthy [doc_rag]))
             (lambda_handler (H := sample_rt) dev_config
                (structured_event (PDict [(lit "query", PInt 7)]))) [])
     = Ok (error_response (H := sample_rt) dev_config
             (AttributeError (PInt 7) "strip")).
Proof. split; vm_compute; reflexivity. Qed.

(** A document whose content is a number passes the generation, where it
    is formatted, and fails when [sources] takes its length. *)
Example numeric_content_is_internal_error :
  fst (run (scripted dev_config (healthy [PDict [(lit "content", PInt 5)]]))
           (lambda_handler (H := sample_rt) dev_config rag_event) [])
  = Ok (error_response (H := sample_rt) dev_config
          (TypeError (lit "object of type 'int' has no len()"))).
Proof. vm_compute. reflexivity. Qed.

(** * Further properties of the source *)

(** ** Functions that log and re-raise *)

Section Reraise.
Context `{Runtime} (cfg : config).

(** [try: p except Exception as e: logger.error(prefix + str(e)); raise]:
    the result of [p], and one log line when it is an exception. *)
Lemma run_log_and_reraise {A : Type} (w : world) (p : M A) (prefix : pystr) h :
  run w (try_except p (fun e => perform (logger_error (prefix ++ exc_str e)) ;;
                                raise e)) h =
    (fst (run w p h), snd (run w p h) ++ failure_log prefix (fst (run w p h))).
Proof.
  rewrite run_try_except. destruct (run w p h) as [[a|e] h']; cbn [fst snd failure_log].
  - by rewrite app_nil_r.
  - reflexivity.
Qed.

Lemma run_invoke_bind {A B : Type} (w : world) (c : call (result A))
    (f : A -> M B) h :
  run w (a <- invoke c ;; f a) h =
    match w _ c h with
    | Ok a => run w (f a) (h ++ [Invoke c])
    | Raise e => (Raise e, h ++ [Invoke c])
    end.
Proof. cbn [invoke bind run]. by destruct (w _ c h). Qed.

Lemma run_perform_bind {A B : Type} (w : world) (c : call A) (f : A -> M B) h :
  run w (a <- perform c ;; f a) h = run w (f (w _ c h)) (h ++ [Invoke c]).
Proof. reflexivity. Qed.

Lemma run_lift_bind {A B : Type} (w : world) (r : result A) (f : A -> M B) h :
  run w (a <- lift r ;; f a) h =
    match r with
    | Ok a => run w (f a) h
    | Raise e => (Raise e, h)
    end.
Proof. by destruct r. Qed.

Lemma run_lift {A : Type} (w : world) (r : result A) h : run w (lift r) h = (r, h).
Proof. reflexivity. Qed.

Lemma get_secret_run (w : world) (secret_name : pystr) h :
  let outcome :=
    (response <~ w _ (get_secret_value secret_name) h ;;
     secret_string <~ py_item response (lit "SecretString") ;;
     py_json_loads secret_string)%py in
  run w (get_secret secret_name) h =
    (outcome,
     h ++ Invoke (get_secret_value secret_name)
       :: failure_log (lit "Error retrieving secret: ") outcome).
Proof.
  intros outcome. unfold get_secret. rewrite run_log_and_reraise.
  assert (Hrun : run w (response <- invoke (get_secret_value secret_name) ;;
                        secret_string <- lift (py_item response (lit "SecretString")) ;;
                        lift (py_json_loads secret_string)) h
                 = (outcome, h ++ [Invoke (get_secret_value secret_name)])).
  { rewrite run_invoke_bind. unfold outcome.
    destruct (w _ (get_secret_value secret_name) h) as [response|e];
      cbn [result_bind]; [|done].
    rewrite run_lift_bind.
    destruct (py_item response (lit "SecretString")); cbn [result_bind]; done. }
  rewrite Hrun. cbn [fst snd]. by rewrite <- app_assoc.
Qed.

(** X1. The secret provider reads the secret once and decodes its
    [SecretString]; whichever of the three steps fails, it logs that
    failure once and raises it unchanged. *)
Theorem get_secret_logs_and_reraises (w : world) (secret_name : pystr) h :
  let outcome :=
    (response <~ w _ (get_secret_value secret_name) h ;;
     secret_string <~ py_item response (lit "SecretString") ;;
     py_json_loads secret_string)%py in
  run w (get_secret secret_name) h =
    (outcome,
     h ++ Invoke (get_secret_value secret_name)
       :: failure_log (lit "Error retrieving secret: ") outcome).
Proof. apply get_secret_run. Qed.

(** The search: without an index name nothing is sent; otherwise one query
    is sent and the sources of the hits are collected. *)
Lemma search_similar_documents_run (w : world) (query_embedding : pyval)
    (top_k : Z) h :
  run w (search_similar_documents cfg query_embedding top_k) h =
    match environ cfg !! lit "VECTOR_INDEX_NAME" with
    | None =>
        (Raise (KeyError (lit "VECTOR_INDEX_NAME")),
         h ++ [Invoke (logger_error (lit "Error searching documents: "
                                       ++ exc_str (KeyError (lit "VECTOR_INDEX_NAME"))))])
    | Some index =>
        let query := opensearch_search index (search_body query_embedding top_k) in
        let outcome :=
          (response <~ w _ query h ;;
           outer <~ py_item response (lit "hits") ;;
           inner <~ py_item outer (lit "hits") ;;
           hits <~ py_iter inner ;;
           comprehension (fun hit => py_item hit (lit "_source")) hits)%py in
        (outcome,
         h ++ Invoke query :: failure_log (lit "Error searching documents: ") outcome)
    end.
Proof.
  unfold search_similar_documents. rewrite run_log_and_reraise.
  cbv zeta. fold (search_body query_embedding top_k).
  rewrite run_lift_bind. unfold environ_item.
  destruct (environ cfg !! lit "VECTOR_INDEX_NAME") as [index|]; cbn [fst snd failure_log].
  - rewrite run_invoke_bind.
    destruct (w _ (opensearch_search index (search_body query_embedding top_k)) h)
      as [response|e]; cbn [result_bind fst snd]; rewrite ?run_lift; cbn [fst snd];
      by rewrite <- app_assoc.
  - reflexivity.
Qed.
End Reraise.

(** ** The vector search client *)

Section Search.
Context `{Runtime} (cfg : config).

Lemma comprehension_Forall2 {A B : Type} (f : A -> result B) (l : list A)
    (l' : list B) :
  Forall2 (fun x y => f x = Ok y) l l' -> comprehension f l = Ok l'.
Proof.
  induction 1 as [|x y l l' Hx Hl IH]; cbn [comprehension result_bind]; [done|].
  by rewrite Hx, IH.
Qed.

Lemma comprehension_raise {A B : Type} (f : A -> result B) (l : list A) (x : A) :
  x ∈ l -> (exists e, f x = Raise e) -> exists e, comprehension f l = Raise e.
Proof.
  intros Hx [e He]. induction l as [|y l IH]; [by apply elem_of_nil in Hx|].
  cbn [comprehension result_bind].
  apply elem_of_cons in Hx as [<-|Hx].
  - rewrite He. by exists e.
  - destruct (f y) as [b|e1]; cbn [result_bind]; [|by exists e1].
    destruct (IH Hx) as [e2 Hl]. rewrite Hl. by exists e2.
Qed.

(** X2. Without [VECTOR_INDEX_NAME] in the environment the search raises
    [KeyError] before anything is sent to the index: the only call is the
    log line of the [except] clause. *)
Theorem search_needs_index_name (w : world) (query_embedding : pyval) (top_k : Z) h :
  environ cfg !! lit "VECTOR_INDEX_NAME" = None ->
  run w (search_similar_documents cfg query_embedding top_k) h =
    (Raise (KeyError (lit "VECTOR_INDEX_NAME")),
     h ++ [Invoke (logger_error (lit "Error searching documents: 'VECTOR_INDEX_NAME'"))]).
Proof. intros Hindex. by rewrite search_similar_documents_run, Hindex. Qed.

(** X3. When the index answers with hits that each carry a [_source], the
    search sends one query, built from the embedding and [top_k], and
    returns the sources of all the hits in the order of the answer: it
    neither logs nor cuts the list to [top_k]. *)
Theorem search_returns_every_source
    (w : world) (query_embedding : pyval) (top_k : Z) (index : pystr)
    (response outer : pyval) (hits docs : list pyval) h :
  environ cfg !! lit "VECTOR_INDEX_NAME" = Some index ->
  w _ (opensearch_search index (search_body query_embedding top_k)) h = Ok response ->
  py_item response (lit "hits") = Ok outer ->
  py_item outer (lit "hits") = Ok (PList hits) ->
  Forall2 (fun hit doc => py_item hit (lit "_source") = Ok doc) hits docs ->
  run w (search_similar_documents cfg query_embedding top_k) h =
    (Ok docs,
     h ++ [Invoke (opensearch_search index
                     (PDict [(lit "size", PInt top_k);
                             (lit "query",
                              PDict [(lit "knn",
                                      PDict [(lit "embedding",
                                              PDict [(lit "vector", query_embedding);
                                                     (lit "k", PInt top_k)])])]);
                             (lit "_source",
                              PList [PStr (lit "content"); PStr (lit "metadata");
                                     PStr (lit "title")])]))])
  /\ length docs = length hits.
Proof.
  intros Hindex Hanswer Houter Hinner Hsources.
  rewrite search_similar_documents_run, Hindex. cbv zeta.
  rewrite Hanswer. cbn [result_bind]. rewrite Houter. cbn [result_bind].
  rewrite Hinner. cbn [result_bind py_iter].
  rewrite (comprehension_Forall2 _ _ _ Hsources). cbn [failure_log].
  split; [reflexivity|]. symmetry. by eapply Forall2_length.
Qed.

(** X4. One hit without a [_source] makes the whole search fail: the
    search raises, logs the failure once, and returns no partial list. *)
Theorem search_fails_on_hit_without_source
    (w : world) (query_embedding : pyval) (top_k : Z) (index : pystr)
    (response outer : pyval) (hits : list pyval) (d : list (pystr * pyval)) h :
  environ cfg !! lit "VECTOR_INDEX_NAME" = Some index ->
  w _ (opensearch_search index (search_body query_embedding top_k)) h = Ok response ->
  py_item response (lit "hits") = Ok outer ->
  py_item outer (lit "hits") = Ok (PList hits) ->
  PDict d ∈ hits -> lookup_key (lit "_source") d = None ->
  exists e : exn,
    run w (search_similar_documents cfg query_embedding top_k) h =
      (Raise e,
       h ++ [Invoke (opensearch_search index (search_body query_embedding top_k));
             Invoke (logger_error (lit "Error searching documents: " ++ exc_str e))]).
Proof.
  intros Hindex Hanswer Houter Hinner Hhit Hsource.
  destruct (comprehension_raise (fun hit => py_item hit (lit "_source")) hits (PDict d) Hhit)
    as [e He].
  { cbn [py_item]. rewrite Hsource. by eexists. }
  exists e. rewrite search_similar_documents_run, Hindex. cbv zeta.
  rewrite Hanswer. cbn [result_bind]. rewrite Houter. cbn [result_bind].
  rewrite Hinner. cbn [result_bind py_iter]. by rewrite He.
Qed.
End Search.

(** ** The two HTTP clients *)

Section Clients.
Context `{Runtime} (cfg : config).

(** The embedding client, step by step: the credential, then one request,
    then the reading of the answer. *)
Lemma generate_embedding_run (w : world) (text : pystr) h :
  let secret := run w (get_secret (LLM_API_KEY_SECRET cfg)) h in
  run w (generate_embedding cfg text) h =
    match (s <~ fst secret ;; py_item s (lit "api_key"))%py with
    | Raise e =>
        (Raise e,
         snd secret ++ [Invoke (logger_error (lit "Error generating embedding: "
                                                ++ exc_str e))])
    | Ok api_key =>
        let post :=
          requests_post (EXTERNAL_LLM_ENDPOINT cfg ++ lit "/embeddings")
            (bearer_headers api_key)
            (PDict [(lit "input", PStr text);
                    (lit "model", PStr (lit "text-embedding-ada-002"))]) 30 in
        let after := snd secret ++ [Invoke post] in
        let answered :=
          match w _ post (snd secret) with
          | Raise e => (Raise e, after)
          | Ok response =>
              if Response.status_code response =? 200 then
                ((j <~ Response.json response ;;
                  data <~ py_item j (lit "data") ;;
                  first <~ py_first data ;;
                  py_item first (lit "embedding"))%py,
                 after)
              else
                (Raise (Exception (lit "Embedding generation failed: "
                                     ++ str_of_int (Response.status_code response))),
                 after ++ [Invoke (logger_error
                                     (lit "Embedding API error: "
                                        ++ str_of_int (Response.status_code response)
                                        ++ lit " - " ++ Response.text response))])
          end in
        (fst answered,
         snd answered ++ failure_log (lit "Error generating embedding: ") (fst answered))
    end.
Proof.
  intros secret. unfold generate_embedding. rewrite run_log_and_reraise, run_bind.
  fold secret. destruct secret as [[s|e] h1]; cbn [fst snd result_bind]; [|done].
  rewrite run_lift_bind.
  destruct (py_item s (lit "api_key")) as [api_key|e]; cbn [fst snd failure_log]; [|done].
  rewrite run_invoke_bind.
  destruct (w _ _ h1) as [response|e]; [|done].
  destruct (Response.status_code response =? 200); [by rewrite run_lift|].
  rewrite run_perform_bind. reflexivity.
Qed.

(** The generation client, step by step: the credential, the context
    block, then one request and the reading of the answer. *)
Lemma generate_rag_response_run (w : world) (query : pystr) (docs : list pyval) h :
  let secret := run w (get_secret (LLM_API_KEY_SECRET cfg)) h in
  run w (generate_rag_response cfg query docs) h =
    match (s <~ fst secret ;;
           api_key <~ py_item s (lit "api_key") ;;
           context <~ context_block docs ;;
           Ok (api_key, context))%py with
    | Raise e =>
        (Raise e,
         snd secret ++ [Invoke (logger_error (lit "Error generating LLM response: "
                                                ++ exc_str e))])
    | Ok (api_key, context) =>
        let post :=
          requests_post (EXTERNAL_LLM_ENDPOINT cfg ++ lit "/chat/completions")
            (bearer_headers api_key) (chat_payload (prompt_of context query)) 60 in
        let after := snd secret ++ [Invoke post] in
        let answered :=
          match w _ post (snd secret) with
          | Raise e => (Raise e, after)
          | Ok response =>
              if Response.status_code response =? 200 then
                ((j <~ Response.json response ;;
                  choices <~ py_item j (lit "choices") ;;
                  first <~ py_first choices ;;
                  message <~ py_item first (lit "message") ;;
                  py_item message (lit "content"))%py,
                 after)
              else
                (Raise (Exception (lit "LLM response generation failed: "
                                     ++ str_of_int (Response.status_code response))),
                 after ++ [Invoke (logger_error
                                     (lit "LLM API error: "
                                        ++ str_of_int (Response.status_code response)
                                        ++ lit " - " ++ Response.text response))])
          end in
        (fst answered,
         snd answered
           ++ failure_log (lit "Error generating LLM response: ") (fst answered))
    end.
Proof.
  intros secret. unfold generate_rag_response. rewrite run_log_and_reraise, run_bind.
  fold secret. destruct secret as [[s|e] h1]; cbn [fst snd result_bind]; [|done].
  rewrite run_lift_bind.
  destruct (py_item s (lit "api_key")) as [api_key|e];
    cbn [fst snd failure_log result_bind]; [|done].
  rewrite run_lift_bind.
  destruct (context_block docs) as [context|e];
    cbn [fst snd failure_log result_bind]; [|done].
  rewrite run_invoke_bind.
  destruct (w _ _ h1) as [response|e]; [|done].
  destruct (Response.status_code response =? 200); [by rewrite run_lift|].
  rewrite run_perform_bind. reflexivity.
Qed.

(** X5. Without a credential no request is sent: when the secret cannot be
    read, or has no [api_key], both clients raise that failure unchanged
    after logging it, and their trace holds the reading of the secret and
    log lines only. *)
Theorem no_request_without_credential
    (w : world) (text query : pystr) (docs : list pyval) (e : exn) h :
  let outcome :=
    (response <~ w _ (get_secret_value (LLM_API_KEY_SECRET cfg)) h ;;
     secret_string <~ py_item response (lit "SecretString") ;;
     py_json_loads secret_string)%py in
  let read :=
    h ++ Invoke (get_secret_value (LLM_API_KEY_SECRET cfg))
      :: failure_log (lit "Error retrieving secret: ") outcome in
  (secret <~ outcome ;; py_item secret (lit "api_key"))%py = Raise e ->
  run w (generate_embedding cfg text) h =
    (Raise e,
     read ++ [Invoke (logger_error (lit "Error generating embedding: " ++ exc_str e))])
  /\ run w (generate_rag_response cfg query docs) h =
       (Raise e,
        read ++ [Invoke (logger_error (lit "Error generating LLM response: "
                                         ++ exc_str e))]).
Proof.
  intros outcome read Hcredential.
  rewrite generate_embedding_run, generate_rag_response_run. cbv zeta.
  rewrite get_secret_run. cbv zeta. cbn [fst snd]. fold outcome. fold read.
  rewrite Hcredential. split; [reflexivity|].
  destruct outcome as [secret|e1]; cbn [result_bind] in *.
  - by rewrite Hcredential.
  - by injection Hcredential as ->.
Qed.

(** X6. Once the credential is read, the context block built and the
    chat endpoint has answered: on a status other than 200 the generation
    client logs the status and the body, and raises an error whose text
    carries the status; on status 200 it returns the content of the message
    of the first choice, without logging. *)
Theorem generation_returns_first_choice
    (w : world) (query : pystr) (docs : list pyval) (secret api_key : pyval)
    (context : pystr) (resp : Response.t) h h1 :
  let post :=
    requests_post (EXTERNAL_LLM_ENDPOINT cfg ++ lit "/chat/completions")
      (bearer_headers api_key) (chat_payload (prompt_of context query)) 60 in
  run w (get_secret (LLM_API_KEY_SECRET cfg)) h = (Ok secret, h1) ->
  py_item secret (lit "api_key") = Ok api_key ->
  context_block docs = Ok context ->
  w _ post h1 = Ok resp ->
  (Response.status_code resp <> 200 ->
   let failure := lit "LLM response generation failed: "
                    ++ str_of_int (Response.status_code resp) in
   run w (generate_rag_response cfg query docs) h =
     (Raise (Exception failure),
      h1 ++ [Invoke post;
             Invoke (logger_error
                       (lit "LLM API error: "
                          ++ str_of_int (Response.status_code resp)
                          ++ lit " - " ++ Response.text resp));
             Invoke (logger_error (lit "Error generating LLM response: " ++ failure))]))
  /\ (Response.status_code resp = 200 ->
      forall (payload first message content : pyval) (rest : list pyval),
        Response.json resp = Ok payload ->
        py_item payload (lit "choices") = Ok (PList (first :: rest)) ->
        py_item first (lit "message") = Ok message ->
        py_item message (lit "content") = Ok content ->
        run w (generate_rag_response cfg query docs) h = (Ok content, h1 ++ [Invoke post])).
Proof.
  intros post Hsecret Hkey Hcontext Hpost.
  rewrite generate_rag_response_run. cbv zeta. rewrite Hsecret. cbn [fst snd result_bind].
  rewrite Hkey. cbn [result_bind]. rewrite Hcontext. cbn [result_bind].
  fold post. rewrite Hpost. split.
  - intros Hstatus. rewrite (proj2 (Z.eqb_neq _ _) Hstatus).
    cbn [fst snd failure_log exc_str Exception]. by rewrite <- !app_assoc.
  - intros Hstatus payload first message content rest Hjson Hchoices Hmessage Hcontent.
    rewrite (proj2 (Z.eqb_eq _ _) Hstatus), Hjson. cbn [result_bind].
    rewrite Hchoices. cbn [result_bind py_first]. rewrite Hmessage. cbn [result_bind].
    rewrite Hcontent. cbn [fst snd failure_log]. by rewrite app_nil_r.
Qed.

Lemma context_block_not_record (docs : list pyval) (doc : pyval) :
  doc ∈ docs -> ~ is_record doc ->
  exists bad, bad ∈ docs /\ ~ is_record bad
              /\ context_block docs = Raise (AttributeError bad "get").
Proof.
  intros Hdoc Hbad. unfold context_block.
  induction docs as [|d docs IH]; [by apply elem_of_nil in Hdoc|].
  cbn [comprehension result_bind].
  assert (Hdec : is_record d \/ ~ is_record d) by (destruct d; cbn; tauto).
  destruct Hdec as [Hd|Hd].
  - rewrite (render_document_record d Hd). cbn [result_bind].
    apply elem_of_cons in Hdoc as [->|Hdoc]; [done|].
    destruct (IH Hdoc) as (bad & Hin & Hnot & Hblock).
    exists bad. split; [by apply elem_of_cons; right|]. split; [done|].
    destruct (comprehension render_document docs); cbn [result_bind] in *; [done|].
    by rewrite Hblock.
  - exists d. split; [by apply elem_of_cons; left|]. split; [done|].
    by destruct d.
Qed.

(** X7. A document that is not a record stops the generation before any
    request: the client raises the [AttributeError] of [doc.get], logs it,
    and nothing is posted to the chat endpoint. *)
Theorem generation_needs_records
    (w : world) (query : pystr) (docs : list pyval) (doc secret api_key : pyval) h h1 :
  run w (get_secret (LLM_API_KEY_SECRET cfg)) h = (Ok secret, h1) ->
  py_item secret (lit "api_key") = Ok api_key ->
  doc ∈ docs -> ~ is_record doc ->
  exists bad : pyval,
    bad ∈ docs /\ ~ is_record bad
    /\ run w (generate_rag_response cfg query docs) h =
         (Raise (AttributeError bad "get"),
          h1 ++ [Invoke (logger_error
                           (lit "Error generating LLM response: "
                              ++ exc_str (AttributeError bad "get")))]).
Proof.
  intros Hsecret Hkey Hdoc Hbad.
  destruct (context_block_not_record docs doc Hdoc Hbad) as (bad & Hin & Hnot & Hblock).
  exists bad. split; [done|]. split; [done|].
  rewrite generate_rag_response_run. cbv zeta. rewrite Hsecret. cbn [fst snd result_bind].
  rewrite Hkey. cbn [result_bind]. by rewrite Hblock.
Qed.

(** X8. Once the credential is read, every way the embedding request can
    go wrong is raised to the caller after one log line, never answered
    with a default: a transport failure, a body that is not JSON on status
    200, a payload without [data], and an empty [data] list ([IndexError]). *)
Theorem embedding_reading_failures
    (w : world) (text : pystr) (secret api_key : pyval) h h1 :
  let post :=
    requests_post (EXTERNAL_LLM_ENDPOINT cfg ++ lit "/embeddings")
      (bearer_headers api_key)
      (PDict [(lit "input", PStr text);
              (lit "model", PStr (lit "text-embedding-ada-002"))]) 30 in
  let failed (e : exn) : result pyval * list invocation :=
    (Raise e,
     h1 ++ [Invoke post;
            Invoke (logger_error (lit "Error generating embedding: " ++ exc_str e))]) in
  run w (get_secret (LLM_API_KEY_SECRET cfg)) h = (Ok secret, h1) ->
  py_item secret (lit "api_key") = Ok api_key ->
  (forall e, w _ post h1 = Raise e -> run w (generate_embedding cfg text) h = failed e)
  /\ (forall resp, w _ post h1 = Ok resp -> Response.status_code resp = 200 ->
      (forall e, Response.json resp = Raise e ->
                 run w (generate_embedding cfg text) h = failed e)
      /\ (forall items, Response.json resp = Ok (PDict items) ->
                        lookup_key (lit "data") items = None ->
                        run w (generate_embedding cfg text) h
                        = failed (KeyError (lit "data")))
      /\ (forall payload, Response.json resp = Ok payload ->
                          py_item payload (lit "data") = Ok (PList []) ->
                          run w (generate_embedding cfg text) h
                          = failed (IndexError (lit "list index out of range")))).
Proof.
  intros post failed Hsecret Hkey.
  assert (Hrun := generate_embedding_run w text h). cbv zeta in Hrun.
  rewrite Hsecret in Hrun. cbn [fst snd result_bind] in Hrun. rewrite Hkey in Hrun.
  fold post in Hrun. unfold failed. split.
  - intros e Hpost. rewrite Hrun, Hpost. cbn [fst snd failure_log].
    by rewrite <- app_assoc.
  - intros resp Hpost Hstatus. rewrite Hrun, Hpost, (proj2 (Z.eqb_eq _ _) Hstatus).
    cbn [fst snd]. split; [|split].
    + intros e ->. cbn [result_bind failure_log]. by rewrite <- app_assoc.
    + intros items -> Hdata. cbn [result_bind py_item]. rewrite Hdata.
      cbn [result_bind failure_log]. by rewrite <- app_assoc.
    + intros payload -> Hdata. cbn [result_bind]. rewrite Hdata.
      cbn [result_bind py_first failure_log]. by rewrite <- app_assoc.
Qed.
End Clients.

(** ** The handler, end to end *)

Section EndToEnd.
Context `{Runtime} (cfg : config).

(** The [try] of the handler either rejects the query, or fails while
    reading the request, or goes on with a non-empty stripped query. *)
Lemma handler_try_cases (event : pyval) (start_time : Z) :
  handler_try cfg event start_time = ret validation_response
  \/ (exists e, handler_try cfg event start_time = raise e)
  \/ (exists query, query <> []
                    /\ handler_try cfg event start_time
                       = answer_query cfg start_time query).
Proof.
  unfold handler_try.
  destruct (py_get event (lit "body") PNone) as [received|e]; cbn [lift bind];
    [|right; left; eexists; reflexivity].
  destruct (if is_str received then _ else _) as [body|e]; cbn [bind];
    [|right; left; eexists; reflexivity].
  destruct (result_bind _ _) as [[|c query]|e]; cbn [bind].
  - by left.
  - right; right. eexists. split; [|reflexivity]. discriminate.
  - right; left. eexists; reflexivity.
Qed.

Lemma answer_query_returns_200 (start_time : Z) (query : pystr) :
  returns (fun resp => statusCode resp = 200) (answer_query cfg start_time query).
Proof.
  unfold answer_query.
  repeat first
    [ apply returns_bind; intros ?
    | apply returns_ret
    | match goal with |- returns _ (match ?x with _ => _ end) => destruct x end ];
    reflexivity.
Qed.

(** X9. The handler answers 400 only when it made no call beyond reading
    the clock: a request that reached a collaborator is never answered as
    a validation error, whatever happens later. *)
Theorem validation_error_only_before_any_call
    (w : world) (event : pyval) (resp : response) :
  fst (run w (lambda_handler cfg event) []) = Ok resp ->
  statusCode resp = 400 ->
  run w (lambda_handler cfg event) [] =
    (Ok {| statusCode := 400;
           headers := json_cors_headers;
           body := json_dumps (PDict [(lit "error", PStr (lit "Query is required"))]) |},
     [Invoke get_remaining_time_in_millis]).
Proof.
  intros Hresp Hstatus. rewrite lambda_handler_run in Hresp |- *.
  destruct (handler_try_cases event (w _ get_remaining_time_in_millis []))
    as [Htry|[[e Htry]|(query & Hquery & Htry)]]; rewrite Htry in Hresp |- *.
  - reflexivity.
  - cbn [raise run] in Hresp. rewrite handler_except_run in Hresp.
    cbn [fst] in Hresp. injection Hresp as <-. discriminate Hstatus.
  - pose proof (results_in_run _ w _ [Invoke get_remaining_time_in_millis]
                  (answer_query_returns_200 (w _ get_remaining_time_in_millis []) query))
      as Hok.
    destruct (run w (answer_query cfg _ query) _) as [[resp'|e] h]; cbn [fst] in *.
    + injection Hresp as ->. rewrite Hok in Hstatus. discriminate Hstatus.
    + rewrite handler_except_run in Hresp. cbn [fst] in Hresp.
      injection Hresp as <-. discriminate Hstatus.
Qed.

(** The error count tells the 500 responses apart: in every run the
    measurement [QueryErrors] is published once when the response is the
    500 one, and not at all otherwise. *)
Theorem error_count_iff_500 (w : world) (event : pyval) :
  exists resp : response,
    fst (run w (lambda_handler cfg event) []) = Ok resp
    /\ published (lit "QueryErrors") (snd (run w (lambda_handler cfg event) []))
       = if statusCode resp =? 500 then 1%nat else 0%nat.
Proof.
  destruct (run w (handler_try cfg event (w _ get_remaining_time_in_millis []))
              [Invoke get_remaining_time_in_millis]) as [[resp|e] h] eqn:Htry.
  - exists resp. rewrite lambda_handler_run, Htry. cbn [fst snd]. split; [done|].
    pose proof (results_in_run _ w _ [Invoke get_remaining_time_in_millis]
                  (handler_try_returns cfg event (w _ get_remaining_time_in_millis [])))
      as Hok.
    rewrite Htry in Hok. cbn [fst] in Hok. destruct Hok as [_ Hstatus].
    pose proof (run_calls_in _ w _ [Invoke get_remaining_time_in_millis]
                  (handler_try_calls cfg event (w _ get_remaining_time_in_millis [])))
      as (t & Ht & Hnone).
    rewrite Htry in Ht. cbn [snd] in Ht. subst h.
    rewrite published_app, (published_none _ _ Hnone).
    by destruct Hstatus as [-> | ->].
  - destruct (lambda_handler_failure cfg w event e h Htry) as (t & -> & Ht & Hh).
    exists (error_response cfg e). cbn [fst snd]. split; [done|].
    rewrite !published_app, Hh, (published_none _ t); [reflexivity|].
    eapply Forall_impl; [exact Ht|]. intros i. apply not_metric_not_measurement.
Qed.

(** X10. The two forms of a request are handled alike: an event whose body
    is a raw string that decodes to [v] gets the run of the event whose body
    is [v] itself (for [v] not a string). Nothing of the event but its body
    is read. *)
Theorem raw_and_structured_bodies_agree
    (w : world) (raw_items items : list (pystr * pyval)) (raw : pystr) (v : pyval) :
  lookup_key (lit "body") raw_items = Some (PStr raw) ->
  json_loads raw = Ok v ->
  lookup_key (lit "body") items = Some v ->
  is_str v = false ->
  run w (lambda_handler cfg (PDict raw_items)) []
  = run w (lambda_handler cfg (PDict items)) [].
Proof.
  intros Hraw Hloads Hitems Hv.
  assert (Htry : forall t, handler_try cfg (PDict raw_items) t
                           = handler_try cfg (PDict items) t).
  { intros t. unfold handler_try. cbn [py_get py_item lift].
    rewrite Hraw, Hitems. cbn [default id is_str bind result_bind py_json_loads].
    cbn [lift bind is_str]. by rewrite Hloads, Hv. }
  by rewrite !lambda_handler_run, Htry.
Qed.

(** X11. A refusal of the embedding endpoint ends the request at once: for
    a request that passed validation and whose credential was read, a
    status other than 200 is logged by the client and by the handler, the
    error count is published, and the 500 response is returned; neither the
    index nor the chat endpoint is called. *)
Theorem embedding_refusal_ends_request
    (w : world) (event : pyval) d q (secret api_key : pyval) (resp : Response.t) h1 :
  let post :=
    requests_post (EXTERNAL_LLM_ENDPOINT cfg ++ lit "/embeddings")
      (bearer_headers api_key)
      (PDict [(lit "input", PStr (strip q));
              (lit "model", PStr (lit "text-embedding-ada-002"))]) 30 in
  let failure := lit "Embedding generation failed: "
                   ++ str_of_int (Response.status_code resp) in
  let logged :=
    h1 ++ [Invoke post;
           Invoke (logger_error
                     (lit "Embedding API error: "
                        ++ str_of_int (Response.status_code resp)
                        ++ lit " - " ++ Response.text resp));
           Invoke (logger_error (lit "Error generating embedding: " ++ failure));
           Invoke (logger_error (lit "Error processing query: " ++ failure))] in
  inbound_body event d -> query_field d q -> strip q <> [] ->
  run w (get_secret (LLM_API_KEY_SECRET cfg)) (validated_trace (strip q))
    = (Ok secret, h1) ->
  py_item secret (lit "api_key") = Ok api_key ->
  w _ post h1 = Ok resp ->
  Response.status_code resp <> 200 ->
  run w (lambda_handler cfg event) [] =
    (Ok {| statusCode := 500;
           headers := json_cors_headers;
           body :=
             json_dumps
               (PDict [(lit "error", PStr (lit "Internal server error"));
                       (lit "message", PStr (error_message cfg (Exception failure)))]) |},
     logged ++ error_count_call cfg
       :: publish_log (w _ (put_metric_data (lit "RAG/Application")
                              (metric_data cfg (lit "QueryErrors") (PInt 1) (lit "Count")))
                         logged)).
Proof.
  intros post failure logged Hbody Hquery Hq Hsecret Hkey Hpost Hstatus.
  rewrite (lambda_handler_validated _ _ _ _ _ Hbody Hquery Hq).
  unfold answer_query. rewrite run_perform_bind. cbn [app].
  fold (validated_trace (strip q)).
  rewrite run_bind, generate_embedding_run. cbv zeta.
  rewrite Hsecret. cbn [fst snd result_bind]. rewrite Hkey. fold post.
  rewrite Hpost, (proj2 (Z.eqb_neq _ _) Hstatus). cbn [fst snd failure_log].
  rewrite handler_except_run. cbv zeta. unfold logged, error_response.
  cbn [exc_str Exception]. fold failure.
  by rewrite <- !app_assoc.
Qed.





(** X13. A query that finds no document is answered without any
    measurement: the run contains no metrics call, so such a query is not
    counted among the queries processed. *)
Theorem no_documents_publishes_nothing
    (w : world) (event : pyval) d q (query_embedding : pyval) h2 h3 :
  inbound_body event d -> query_field d q -> strip q <> [] ->
  run w (generate_embedding cfg (strip q)) (validated_trace (strip q))
    = (Ok query_embedding, h2) ->
  run w (search_similar_documents cfg query_embedding 5) h2 = (Ok [], h3) ->
  Forall (fun i => is_metric_call i = false)
         (snd (run w (lambda_handler cfg event) [])).
Proof.
  intros Hbody Hquery Hq Hemb Hsearch.
  rewrite (lambda_handler_validated _ _ _ _ _ Hbody Hquery Hq).
  unfold answer_query. rewrite run_perform_bind. cbn [app].
  fold (validated_trace (strip q)).
  rewrite run_bind, Hemb, run_bind, Hsearch. cbn [ret run snd].
  eapply (extends_with _ w _ _ h2 h3); [|exact Hsearch|].
  { eapply calls_in_mono; [|apply search_similar_documents_calls]. by intros ? [? _]. }
  eapply (extends_with _ w _ _ _ h2); [|exact Hemb|].
  { eapply calls_in_mono; [|apply generate_embedding_calls]. by intros ? [? _]. }
  repeat constructor.
Qed.
End EndToEnd.

(** ** What every run keeps *)

Section Invariants.
Context `{Runtime} (cfg : config).

Ltac untagged lem :=
  eapply calls_in_mono; [|apply lem];
  first [intros ? [? _]|intros ? ?]; by left.

Lemma publish_metrics_tagged (name : pystr) (value : pyval) (unit : pystr) :
  name ∈ [lit "QueryProcessingTime"; lit "DocumentsRetrieved";
          lit "QueriesProcessed"; lit "QueryErrors"] ->
  calls_in (fun i => is_metric_call i = false \/ tagged_measurement cfg i)
           (publish_metrics cfg name value unit).
Proof.
  intros Hname. unfold publish_metrics. repeat calls_step; [|by left].
  right. by exists name, value, unit.
Qed.

Lemma lambda_handler_tagged (event : pyval) :
  calls_in (fun i => is_metric_call i = false \/ tagged_measurement cfg i)
           (lambda_handler cfg event).
Proof.
  unfold lambda_handler, handler_try, answer_query, handler_except.
  repeat first
    [ untagged generate_embedding_calls
    | untagged search_similar_documents_calls
    | untagged generate_rag_response_calls
    | apply publish_metrics_tagged; set_solver
    | calls_step ]; by left.
Qed.

(** X14. Every metrics call of every run goes to the namespace
    [RAG/Application] and carries one datum, named by one of the four
    measurements of the handler and tagged with the dimension
    [Environment], whose value is the environment label, or [dev] when
    there is none. *)
Theorem every_measurement_is_tagged (w : world) (event : pyval) :
  Forall (fun i => is_metric_call i = true -> tagged_measurement cfg i)
         (snd (run w (lambda_handler cfg event) [])).
Proof.
  destruct (run_calls_in _ w _ [] (lambda_handler_tagged event)) as (t & Ht & Htagged).
  rewrite Ht. cbn [app]. eapply Forall_impl; [exact Htagged|].
  intros i [Hi|Hi] Hmetric; [congruence|done].
Qed.
End Invariants.

(** ** No call is repeated *)

Section Budget.
Context {A : Type} (P : invocation -> bool).

Lemma at_most_mono (n m : nat) (p : prog A) :
  (n <= m)%nat -> at_most P n p -> at_most P m p.
Proof.
  intros Hnm Hp. revert m Hnm.
  induction Hp as [n a|n X c k Hc Hk IH|n X c k Hk IH]; intros m Hnm.
  - constructor.
  - apply at_most_other; auto.
  - destruct m as [|m]; [lia|]. apply at_most_one_more. intros x. apply IH. lia.
Qed.

Lemma at_most_zero (p : prog A) :
  calls_in (fun i => P i = false) p -> at_most P 0 p.
Proof. induction 1; [constructor|by apply at_most_other]. Qed.

(** A run makes at most as many calls as the program can make. *)
Lemma at_most_run (n : nat) (w : world) (p : prog A) h :
  at_most P n p -> (calls_of P (snd (run w p h)) <= calls_of P h + n)%nat.
Proof.
  intros Hp. revert h.
  induction Hp as [n a|n X c k Hc Hk IH|n X c k Hk IH]; intros h; cbn [run snd].
  - lia.
  - etransitivity; [apply IH|]. unfold calls_of.
    rewrite List.filter_app, length_app. cbn [List.filter]. rewrite Hc. cbn. lia.
  - etransitivity; [apply IH|]. unfold calls_of.
    rewrite List.filter_app, length_app. cbn [List.filter].
    destruct (P (Invoke c)); cbn; lia.
Qed.
End Budget.

Section BudgetBind.
Context {A B : Type} (P : invocation -> bool).

Lemma at_most_try_except (n : nat) (p : M A) (handler : exn -> M A) :
  at_most P n p -> (forall e, at_most P 0 (handler e)) ->
  at_most P n (try_except p handler).
Proof.
  intros Hp Hh.
  induction Hp as [n [a|e]|n X c k Hc Hk IH|n X c k Hk IH]; cbn [try_except].
  - constructor.
  - eapply at_most_mono; [|apply Hh]. lia.
  - apply at_most_other; auto.
  - apply at_most_one_more; auto.
Qed.


Lemma at_most_bind (n m : nat) (p : M A) (f : A -> M B) :
  at_most P n p -> (forall a, at_most P m (f a)) -> at_most P (n + m) (bind p f).
Proof.
  intros Hp Hf.
  induction Hp as [n [a|e]|n X c k Hc Hk IH|n X c k Hk IH]; cbn [bind].
  - eapply at_most_mono; [|apply Hf]. lia.
  - constructor.
  - apply at_most_other; auto.
  - apply (at_most_one_more P (n + m)). auto.
Qed.

Lemma at_most_bind_free (m : nat) (p : M A) (f : A -> M B) :
  calls_in (fun i => P i = false) p -> (forall a, at_most P m (f a)) ->
  at_most P m (bind p f).
Proof. intros Hp Hf. apply (at_most_bind 0 m); [by apply at_most_zero|done]. Qed.

Lemma at_most_bind_one (m : nat) (p : M A) (f : A -> M B) :
  at_most P 1 p -> (forall a, at_most P m (f a)) -> at_most P (S m) (bind p f).
Proof. intros Hp Hf. by apply (at_most_bind 1 m). Qed.
End BudgetBind.

Lemma at_most_invoke {A : Type} (P : invocation -> bool) (c : call (result A)) :
  at_most P 1 (invoke c).
Proof. apply at_most_one_more. intros x. constructor. Qed.

Section NoRetry.
Context `{Runtime} (cfg : config).

Ltac free :=
  unfold generate_embedding, generate_rag_response, search_similar_documents,
    get_secret, publish_metrics;
  repeat calls_step; reflexivity.

Ltac budget known :=
  repeat first
    [ apply at_most_Ret
    | match goal with |- at_most _ _ (match ?x with _ => _ end) => destruct x end
    | match goal with |- at_most _ _ (if ?x then _ else _) => destruct x end
    | apply at_most_try_except; [|intros ?; apply at_most_zero; solve [free]]
    | apply at_most_bind_free; [solve [free]|intros ?]
    | apply at_most_bind_one; [solve [known]|intros ?]
    | apply at_most_zero; solve [free] ].

Lemma get_secret_reads_once (secret_name : pystr) :
  at_most is_secret_call 1 (get_secret secret_name).
Proof. unfold get_secret. budget ltac:(apply at_most_invoke). Qed.

Lemma generate_embedding_reads_once (text : pystr) :
  at_most is_secret_call 1 (generate_embedding cfg text).
Proof. unfold generate_embedding. budget ltac:(apply get_secret_reads_once). Qed.

Lemma generate_rag_response_reads_once (query : pystr) (docs : list pyval) :
  at_most is_secret_call 1 (generate_rag_response cfg query docs).
Proof. unfold generate_rag_response. budget ltac:(apply get_secret_reads_once). Qed.

Lemma generate_embedding_posts_once (text : pystr) :
  at_most is_post_call 1 (generate_embedding cfg text).
Proof. unfold generate_embedding. budget ltac:(apply at_most_invoke). Qed.

Lemma generate_rag_response_posts_once (query : pystr) (docs : list pyval) :
  at_most is_post_call 1 (generate_rag_response cfg query docs).
Proof. unfold generate_rag_response. budget ltac:(apply at_most_invoke). Qed.

Lemma search_similar_documents_queries_once (query_embedding : pyval) (top_k : Z) :
  at_most is_search_call 1 (search_similar_documents cfg query_embedding top_k).
Proof. unfold search_similar_documents. budget ltac:(apply at_most_invoke). Qed.

Lemma lambda_handler_reads_twice (event : pyval) :
  at_most is_secret_call 2 (lambda_handler cfg event).
Proof.
  unfold lambda_handler, handler_try, answer_query, handler_except.
  budget ltac:(first [apply generate_embedding_reads_once
                     |apply generate_rag_response_reads_once]).
Qed.

Lemma lambda_handler_posts_twice (event : pyval) :
  at_most is_post_call 2 (lambda_handler cfg event).
Proof.
  unfold lambda_handler, handler_try, answer_query, handler_except.
  budget ltac:(first [apply generate_embedding_posts_once
                     |apply generate_rag_response_posts_once]).
Qed.

Lemma lambda_handler_queries_once (event : pyval) :
  at_most is_search_call 1 (lambda_handler cfg event).
Proof.
  unfold lambda_handler, handler_try, answer_query, handler_except.
  budget ltac:(apply search_similar_documents_queries_once).
Qed.

(** X15. Nothing is retried: whatever the collaborators answer and
    whatever fails, one invocation of the handler queries the index at most
    once, posts at most two HTTP requests and reads the secret at most
    twice. *)
Theorem handler_never_retries (w : world) (event : pyval) :
  let trace := snd (run w (lambda_handler cfg event) []) in
  (calls_of is_search_call trace <= 1)%nat
  /\ (calls_of is_post_call trace <= 2)%nat
  /\ (calls_of is_secret_call trace <= 2)%nat.
Proof.
  intros trace. split; [|split].
  - apply (at_most_run _ 1 w _ [] (lambda_handler_queries_once event)).
  - apply (at_most_run _ 2 w _ [] (lambda_handler_posts_twice event)).
  - apply (at_most_run _ 2 w _ [] (lambda_handler_reads_twice event)).
Qed.
End NoRetry.

(** ** The calls of a pipeline that succeeds *)

Section Sequence.
Context `{Runtime} (cfg : config).

Lemma get_secret_ok (w : world) (secret_name : pystr) (secret : pyval) h h1 :
  run w (get_secret secret_name) h = (Ok secret, h1) ->
  h1 = h ++ [Invoke (get_secret_value secret_name)].
Proof.
  rewrite get_secret_run. cbv zeta. intros [= Hsecret <-].
  rewrite Hsecret. reflexivity.
Qed.

Lemma generate_embedding_ok (w : world) (text : pystr) (embedding : pyval) h h2 :
  run w (generate_embedding cfg text) h = (Ok embedding, h2) ->
  exists api_key : pyval,
    h2 = h ++ [Invoke (get_secret_value (LLM_API_KEY_SECRET cfg));
               Invoke (requests_post
                         (EXTERNAL_LLM_ENDPOINT cfg ++ lit "/embeddings")
                         (bearer_headers api_key)
                         (PDict [(lit "input", PStr text);
                                 (lit "model", PStr (lit "text-embedding-ada-002"))])
                         30)].
Proof.
  rewrite generate_embedding_run. cbv zeta.
  destruct (run w (get_secret (LLM_API_KEY_SECRET cfg)) h) as [[secret|e] h1] eqn:Hsecret;
    cbn [fst snd result_bind]; [|discriminate].
  apply get_secret_ok in Hsecret as ->.
  destruct (py_item secret (lit "api_key")) as [api_key|e]; [|discriminate].
  intros Hrun. exists api_key. revert Hrun.
  destruct (w _ _ _) as [response|e]; [|discriminate].
  destruct (Response.status_code response =? 200); [|discriminate].
  cbn [fst snd]. intros [= Hok <-]. rewrite Hok. cbn [failure_log].
  by rewrite <- !app_assoc.
Qed.

Lemma search_similar_documents_ok (w : world) (query_embedding : pyval) (top_k : Z)
    (docs : list pyval) h h3 :
  run w (search_similar_documents cfg query_embedding top_k) h = (Ok docs, h3) ->
  exists index : pystr,
    environ cfg !! lit "VECTOR_INDEX_NAME" = Some index
    /\ h3 = h ++ [Invoke (opensearch_search index (search_body query_embedding top_k))].
Proof.
  rewrite search_similar_documents_run.
  destruct (environ cfg !! lit "VECTOR_INDEX_NAME") as [index|]; [|discriminate].
  cbv zeta. intros [= Hok <-]. exists index. split; [done|].
  rewrite Hok. reflexivity.
Qed.

Lemma generate_rag_response_ok (w : world) (query : pystr) (docs : list pyval)
    (answer : pyval) h h4 :
  run w (generate_rag_response cfg query docs) h = (Ok answer, h4) ->
  exists (api_key : pyval) (context : pystr),
    context_block docs = Ok context
    /\ h4 = h ++ [Invoke (get_secret_value (LLM_API_KEY_SECRET cfg));
                  Invoke (requests_post
                            (EXTERNAL_LLM_ENDPOINT cfg ++ lit "/chat/completions")
                            (bearer_headers api_key)
                            (chat_payload (prompt_of context query)) 60)].
Proof.
  rewrite generate_rag_response_run. cbv zeta.
  destruct (run w (get_secret (LLM_API_KEY_SECRET cfg)) h) as [[secret|e] h1] eqn:Hsecret;
    cbn [fst snd result_bind]; [|discriminate].
  apply get_secret_ok in Hsecret as ->.
  destruct (py_item secret (lit "api_key")) as [api_key|e];
    cbn [result_bind]; [|discriminate].
  destruct (context_block docs) as [context|e]; cbn [result_bind]; [|discriminate].
  intros Hrun. exists api_key, context. split; [done|]. revert Hrun.
  destruct (w _ _ _) as [response|e]; [|discriminate].
  destruct (Response.status_code response =? 200); [|discriminate].
  cbn [fst snd]. intros [= Hok <-]. rewrite Hok. cbn [failure_log].
  by rewrite <- !app_assoc.
Qed.

(** X16. A pipeline that succeeds makes exactly five calls between the
    validation and the metrics, in this order and without a log line: it
    reads the secret and posts the query for its embedding, queries the
    index with that embedding and [top_k] 5, then reads the secret again
    and posts the prompt built from the documents found. *)
Theorem pipeline_calls_in_order
    (w : world) (query : pystr) (query_embedding answer : pyval)
    (similar_docs : list pyval) h h2 h3 h4 :
  run w (generate_embedding cfg query) h = (Ok query_embedding, h2) ->
  run w (search_similar_documents cfg query_embedding 5) h2 = (Ok similar_docs, h3) ->
  run w (generate_rag_response cfg query similar_docs) h3 = (Ok answer, h4) ->
  exists (key1 key2 : pyval) (index context : pystr),
    environ cfg !! lit "VECTOR_INDEX_NAME" = Some index
    /\ context_block similar_docs = Ok context
    /\ h4 = h ++ [Invoke (get_secret_value (LLM_API_KEY_SECRET cfg));
                  Invoke (requests_post
                            (EXTERNAL_LLM_ENDPOINT cfg ++ lit "/embeddings")
                            (bearer_headers key1)
                            (PDict [(lit "input", PStr query);
                                    (lit "model", PStr (lit "text-embedding-ada-002"))])
                            30);
                  Invoke (opensearch_search index (search_body query_embedding 5));
                  Invoke (get_secret_value (LLM_API_KEY_SECRET cfg));
                  Invoke (requests_post
                            (EXTERNAL_LLM_ENDPOINT cfg ++ lit "/chat/completions")
                            (bearer_headers key2)
                            (chat_payload (prompt_of context query)) 60)].
Proof.
  intros Hemb Hsearch Hanswer.
  apply generate_embedding_ok in Hemb as [key1 ->].
  apply search_similar_documents_ok in Hsearch as (index & Hindex & ->).
  apply generate_rag_response_ok in Hanswer as (key2 & context & Hcontext & ->).
  exists key1, key2, index, context. split; [done|]. split; [done|].
  by rewrite <- !app_assoc.
Qed.
End Sequence.

(** ** Requests and documents outside the expected shape *)

Section Malformed.
Context `{Runtime} (cfg : config).

Lemma lambda_handler_raise (w : world) (event : pyval) (e : exn) :
  (forall t, handler_try cfg event t = raise e) ->
  let logged := [Invoke get_remaining_time_in_millis;
                 Invoke (logger_error (lit "Error processing query: " ++ exc_str e))] in
  run w (lambda_handler cfg event) [] =
    (Ok (error_response cfg e),
     logged ++ error_count_call cfg
       :: publish_log (w _ (put_metric_data (lit "RAG/Application")
                              (metric_data cfg (lit "QueryErrors") (PInt 1) (lit "Count")))
                         logged)).
Proof.
  intros Htry logged. rewrite lambda_handler_run, Htry. cbn [raise run].
  by rewrite handler_except_run.
Qed.

(** X17. A request outside the documented shape is an internal failure,
    not a validation error: a body that is present but is neither a string
    nor an object (for instance [null]), and a query that is present but is
    not a string, make the handler raise [AttributeError] inside its [try];
    it answers 500 and publishes the error count. *)
Theorem malformed_request_is_internal_error
    (w : world) (items : list (pystr * pyval)) :
  let failed (e : exn) : result response * list invocation :=
    let logged := [Invoke get_remaining_time_in_millis;
                   Invoke (logger_error (lit "Error processing query: " ++ exc_str e))] in
    (Ok {| statusCode := 500;
           headers := json_cors_headers;
           body :=
             json_dumps
               (PDict [(lit "error", PStr (lit "Internal server error"));
                       (lit "message", PStr (error_message cfg e))]) |},
     logged ++ error_count_call cfg
       :: publish_log (w _ (put_metric_data (lit "RAG/Application")
                              (metric_data cfg (lit "QueryErrors") (PInt 1) (lit "Count")))
                         logged)) in
  (forall v : pyval,
      lookup_key (lit "body") items = Some v -> is_str v = false -> ~ is_record v ->
      run w (lambda_handler cfg (PDict items)) [] = failed (AttributeError v "get"))
  /\ (forall (d : list (pystr * pyval)) (field : pyval),
        inbound_body (PDict items) d ->
        lookup_key (lit "query") d = Some field -> is_str field = false ->
        run w (lambda_handler cfg (PDict items)) [] = failed (AttributeError field "strip")).
Proof.
  intros failed. split.
  - intros v Hbody Hstr Hrecord. apply lambda_handler_raise. intros t.
    unfold handler_try. cbn [py_get lift]. rewrite Hbody.
    cbn [default id bind lift]. rewrite Hstr. cbn [bind lift].
    by destruct v.
  - intros d field Hbody Hquery Hstr. apply lambda_handler_raise. intros t.
    unfold handler_try.
    assert (Hparsed : forall received,
               py_get (PDict items) (lit "body") PNone = Ok received ->
               (if is_str received then
                  raw <~ py_item (PDict items) (lit "body") ;; py_json_loads raw
                else py_get (PDict items) (lit "body") (PDict []))%py = Ok (PDict d)).
    { intros received. cbn [py_get py_item].
      inversion Hbody as [? raw ? Hraw Hloads|? ? Hitem|? Hitem]; subst;
        rewrite ?Hraw, ?Hitem; cbn [default id]; intros [= <-]; cbn [is_str result_bind];
        [cbn [py_json_loads]; by rewrite Hloads|done..]. }
    destruct (py_get (PDict items) (lit "body") PNone) as [received|e] eqn:Hreceived;
      [|discriminate Hreceived].
    cbn [lift bind]. rewrite (Hparsed received eq_refl). cbn [bind py_get result_bind].
    rewrite Hquery. cbn [default id]. by destruct field.
Qed.

(** C1. The defect. An event whose body is [null], as a request without a
    body arrives, and a body whose query is [null], carry no query; yet the
    handler does not answer 400. The default of [event.get('body', {})] and
    of [body.get('query', '')] applies to an absent key only: on [None] the
    [get] of the body, or the [strip] of the query, raises inside the
    [try], and the handler logs the failure, publishes [QueryErrors] and
    answers 500. *)
Theorem missing_query_is_answered_500 (w : world) :
  let answered (event : pyval) (e : exn) : Prop :=
    let logged := [Invoke get_remaining_time_in_millis;
                   Invoke (logger_error (lit "Error processing query: " ++ exc_str e))] in
    run w (lambda_handler cfg event) [] =
      (Ok {| statusCode := 500;
             headers := json_cors_headers;
             body :=
               json_dumps
                 (PDict [(lit "error", PStr (lit "Internal server error"));
                         (lit "message", PStr (error_message cfg e))]) |},
       logged ++ error_count_call cfg
         :: publish_log (w _ (put_metric_data (lit "RAG/Application")
                                (metric_data cfg (lit "QueryErrors") (PInt 1)
                                   (lit "Count")))
                           logged))
    /\ fst (run w (lambda_handler cfg event) []) <>
         Ok {| statusCode := 400;
               headers := json_cors_headers;
               body := json_dumps (PDict [(lit "error", PStr (lit "Query is required"))]) |} in
  answered (PDict [(lit "body", PNone)]) (AttributeError PNone "get")
  /\ answered (PDict [(lit "body", PDict [(lit "query", PNone)])])
              (AttributeError PNone "strip").
Proof.
  intros answered.
  assert (Hraise : forall event e, (forall t, handler_try cfg event t = raise e) ->
                                   answered event e).
  { intros event e Htry. unfold answered.
    rewrite (lambda_handler_raise w event e Htry). cbv zeta.
    split; [reflexivity|]. cbn [fst]. discriminate. }
  split; apply Hraise; intros t; reflexivity.
Qed.
End Malformed.

(** ** Measurements by outcome *)

Section Outcome.
Context `{Runtime} (cfg : config).

Lemma measurements_app (t1 t2 : list invocation) :
  measurements (t1 ++ t2) = measurements t1 ++ measurements t2.
Proof. apply omap_app. Qed.

Lemma measurements_none (t : list invocation) :
  Forall (fun i => is_metric_call i = false) t -> measurements t = [].
Proof.
  induction 1 as [|i t Hi Ht IH]; [done|]. unfold measurements in *. cbn [omap].
  destruct i as [X []]; try discriminate Hi; cbn; exact IH.
Qed.

Lemma measurements_publish_log (answer : result ()) :
  measurements (publish_log answer) = [].
Proof. by destruct answer. Qed.

(** A program without metrics call leaves the measurements as they are. *)
Lemma measurements_kept {A : Type} (w : world) (p : prog A) h :
  calls_in (fun i => is_metric_call i = false) p ->
  measurements (snd (run w p h)) = measurements h.
Proof.
  intros Hp. destruct (run_calls_in _ w p h Hp) as (t & -> & Ht).
  by rewrite measurements_app, (measurements_none t Ht), app_nil_r.
Qed.

Lemma measurements_publish (w : world) (name : pystr) (value : pyval) (unit : pystr) h :
  measurements (snd (run w (publish_metrics cfg name value unit) h))
  = measurements h ++ [name].
Proof.
  rewrite publish_metrics_run. cbn [snd].
  rewrite measurements_app. f_equal.
  change (measurements (?i :: ?t)) with (measurements [i] ++ measurements t).
  by rewrite measurements_publish_log.
Qed.

(** The pipeline publishes its three measurements when it answers in full,
    and none when it raises or finds no document. *)
Lemma answer_query_measurements (w : world) (start_time : Z) (query : pystr) h :
  measurements h = [] ->
  match run w (answer_query cfg start_time query) h with
  | (Raise _, h') => measurements h' = []
  | (Ok resp, h') =>
      statusCode resp = 200
      /\ (measurements h' = []
          \/ measurements h' = [lit "QueryProcessingTime"; lit "DocumentsRetrieved";
                                lit "QueriesProcessed"])
  end.
Proof.
  intros Hh. unfold answer_query. rewrite run_perform_bind, run_bind.
  set (h1 := h ++ [Invoke (logger_info (lit "Processing query: " ++ query))]).
  assert (Hh1 : measurements h1 = []).
  { unfold h1. by rewrite measurements_app, Hh. }
  assert (Hemb := measurements_kept w (generate_embedding cfg query) h1).
  destruct (run w (generate_embedding cfg query) h1) as [[query_embedding|e] h2];
    cbn [snd] in Hemb.
  2: { rewrite Hemb, Hh1; [done|].
       eapply calls_in_mono; [|apply generate_embedding_calls]. by intros ? [? _]. }
  assert (Hh2 : measurements h2 = []).
  { rewrite Hemb, Hh1; [done|].
    eapply calls_in_mono; [|apply generate_embedding_calls]. by intros ? [? _]. }
  rewrite run_bind.
  assert (Hsearch := measurements_kept w (search_similar_documents cfg query_embedding 5) h2).
  destruct (run w (search_similar_documents cfg query_embedding 5) h2)
    as [[similar_docs|e] h3]; cbn [snd] in Hsearch.
  2: { rewrite Hsearch, Hh2; [done|].
       eapply calls_in_mono; [|apply search_similar_documents_calls]. by intros ? [? _]. }
  assert (Hh3 : measurements h3 = []).
  { rewrite Hsearch, Hh2; [done|].
    eapply calls_in_mono; [|apply search_similar_documents_calls]. by intros ? [? _]. }
  destruct similar_docs as [|doc docs]; [cbn [ret run]; auto|].
  rewrite run_bind.
  assert (Hanswer := measurements_kept w
                       (generate_rag_response cfg query (doc :: docs)) h3
                       (generate_rag_response_calls cfg query (doc :: docs))).
  destruct (run w (generate_rag_response cfg query (doc :: docs)) h3)
    as [[answer|e] h4]; cbn [snd] in Hanswer; [|by rewrite Hanswer].
  rewrite run_lift_bind.
  destruct (comprehension (source_entry) (doc :: docs)) as [sources|e];
    [|by rewrite Hanswer].
  rewrite run_perform_bind, run_lift_bind.
  assert (Hh5 : measurements (h4 ++ [Invoke get_remaining_time_in_millis]) = []).
  { by rewrite measurements_app, Hanswer, Hh3. }
  destruct (true_div _ 1000) as [processing_time|e]; [|done].
  rewrite run_bind.
  pose proof (measurements_publish w (lit "QueryProcessingTime") processing_time
                (lit "Seconds") (h4 ++ [Invoke get_remaining_time_in_millis])) as H1.
  destruct (run w (publish_metrics cfg (lit "QueryProcessingTime") _ _) _) as [[[]|e] h6] eqn:Hp1;
    [|by rewrite publish_metrics_run in Hp1].
  cbn [snd] in H1. rewrite run_bind.
  pose proof (measurements_publish w (lit "DocumentsRetrieved")
                (PInt (Z.of_nat (length (doc :: docs)))) (lit "Count") h6) as H2.
  destruct (run w (publish_metrics cfg (lit "DocumentsRetrieved") _ _) _) as [[[]|e] h7] eqn:Hp2;
    [|by rewrite publish_metrics_run in Hp2].
  cbn [snd] in H2. rewrite run_bind.
  pose proof (measurements_publish w (lit "QueriesProcessed") (PInt 1) (lit "Count") h7)
    as H3.
  destruct (run w (publish_metrics cfg (lit "QueriesProcessed") _ _) _) as [[[]|e] h8] eqn:Hp3;
    [|by rewrite publish_metrics_run in Hp3].
  cbn [snd] in H3. cbn [ret run]. split; [done|]. right.
  by rewrite H3, H2, H1, Hh5.
Qed.

Lemma measurements_except (w : world) (e : exn) h :
  measurements h = [] ->
  measurements (snd (run w (handler_except cfg e) h)) = [lit "QueryErrors"].
Proof.
  intros Hh. rewrite handler_except_run. cbv zeta. cbn [snd].
  rewrite !measurements_app, Hh.
  change (measurements (?i :: ?t)) with (measurements [i] ++ measurements t).
  by rewrite measurements_publish_log.
Qed.

(** X18. What a run publishes follows from its outcome alone: nothing with
    the 400 response; nothing, or the three measurements of a processed
    query in their order, with a 200 response; [QueryErrors] and nothing
    else with the 500 response. A request that fails is never counted as
    processed. *)
Theorem measurements_by_outcome (w : world) (event : pyval) :
  exists resp : response,
    fst (run w (lambda_handler cfg event) []) = Ok resp
    /\ let published := measurements (snd (run w (lambda_handler cfg event) [])) in
       (statusCode resp = 400 /\ published = [])
       \/ (statusCode resp = 200
           /\ (published = []
               \/ published = [lit "QueryProcessingTime"; lit "DocumentsRetrieved";
                               lit "QueriesProcessed"]))
       \/ (statusCode resp = 500 /\ published = [lit "QueryErrors"]).
Proof.
  rewrite lambda_handler_run.
  destruct (handler_try_cases cfg event (w _ get_remaining_time_in_millis []))
    as [Htry|[[e Htry]|(query & Hquery & Htry)]]; rewrite Htry.
  - exists validation_response. split; [done|]. by left.
  - exists (error_response cfg e). cbn [raise run].
    split; [by rewrite handler_except_run|]. right; right. split; [done|].
    by apply measurements_except.
  - pose proof (answer_query_measurements w (w _ get_remaining_time_in_millis []) query
                  [Invoke get_remaining_time_in_millis] eq_refl) as Hrun.
    destruct (run w (answer_query cfg _ query) _) as [[resp|e] h].
    + exists resp. split; [done|]. right; left. exact Hrun.
    + exists (error_response cfg e). split; [by rewrite handler_except_run|].
      right; right. split; [done|]. by apply measurements_except.
Qed.

Lemma source_entry_no_length (items : list (pystr * pyval)) (v : pyval) :
  lookup_key (lit "content") items = Some v -> has_no_length v ->
  exists e, source_entry (PDict items) = Raise e.
Proof.
  intros Hcontent Hv. unfold source_entry. cbn [py_get result_bind].
  rewrite Hcontent. cbn [default id]. destruct v; try done; by eexists.
Qed.

(** X19. A document whose content has no length (a number, a boolean or
    [null]) fails the shaping of the sources after the answer was
    generated: the chat endpoint has been called, the answer is dropped, and
    the handler returns the 500 response and publishes the error count. *)
Theorem content_without_length_fails_after_generation
    (w : world) (event : pyval) d q (query_embedding answer : pyval)
    (similar_docs : list pyval) (items : list (pystr * pyval)) (v : pyval) h2 h3 h4 :
  inbound_body event d -> query_field d q -> strip q <> [] ->
  run w (generate_embedding cfg (strip q)) (validated_trace (strip q))
    = (Ok query_embedding, h2) ->
  run w (search_similar_documents cfg query_embedding 5) h2 = (Ok similar_docs, h3) ->
  run w (generate_rag_response cfg (strip q) similar_docs) h3 = (Ok answer, h4) ->
  PDict items ∈ similar_docs ->
  lookup_key (lit "content") items = Some v -> has_no_length v ->
  exists e : exn,
    let logged :=
      h4 ++ [Invoke (logger_error (lit "Error processing query: " ++ exc_str e))] in
    run w (lambda_handler cfg event) [] =
      (Ok {| statusCode := 500;
             headers := json_cors_headers;
             body :=
               json_dumps
                 (PDict [(lit "error", PStr (lit "Internal server error"));
                         (lit "message", PStr (error_message cfg e))]) |},
       logged ++ error_count_call cfg
         :: publish_log (w _ (put_metric_data (lit "RAG/Application")
                                (metric_data cfg (lit "QueryErrors") (PInt 1)
                                   (lit "Count")))
                           logged)).
Proof.
  intros Hbody Hquery Hq Hemb Hsearch Hanswer Hdoc Hcontent Hv.
  destruct (comprehension_raise source_entry similar_docs (PDict items) Hdoc
              (source_entry_no_length items v Hcontent Hv)) as [e He].
  exists e. intros logged.
  rewrite (lambda_handler_validated _ _ _ _ _ Hbody Hquery Hq).
  unfold answer_query. rewrite run_perform_bind. cbn [app].
  fold (validated_trace (strip q)).
  rewrite run_bind, Hemb, run_bind, Hsearch.
  destruct similar_docs as [|doc docs]; [by apply elem_of_nil in Hdoc|].
  rewrite run_bind, Hanswer, run_lift_bind, He.
  by rewrite handler_except_run.
Qed.
End Outcome.

(** ** The further properties at sample requests *)

Lemma search_needs_index_name_witness :
  run (scripted no_index_config (healthy [doc_rag]))
      (search_similar_documents no_index_config (PList [PInt 1; PInt 0; PInt 2]) 5) [] =
    (Raise (KeyError (lit "VECTOR_INDEX_NAME")),
     [] ++ [Invoke (logger_error (lit "Error searching documents: 'VECTOR_INDEX_NAME'"))]).
Proof. apply search_needs_index_name. reflexivity. Defined.

Lemma search_returns_every_source_witness :
  let docs := replicate 7 doc_rag in
  let embedding := PList [PInt 1; PInt 0; PInt 2] in
  run (scripted dev_config (healthy docs))
      (search_similar_documents dev_config embedding 5) [] =
    (Ok docs,
     [] ++ [Invoke (opensearch_search (lit "documents")
                      (PDict [(lit "size", PInt 5);
                              (lit "query",
                               PDict [(lit "knn",
                                       PDict [(lit "embedding",
                                               PDict [(lit "vector", embedding);
                                                      (lit "k", PInt 5)])])]);
                              (lit "_source",
                               PList [PStr (lit "content"); PStr (lit "metadata");
                                      PStr (lit "title")])]))])
  /\ length docs = length (map hit_of docs).
Proof.
  intros docs embedding.
  eapply (search_returns_every_source dev_config (scripted dev_config (healthy docs))
            embedding 5 (lit "documents")).
  - vm_compute. reflexivity.
  - reflexivity.
  - reflexivity.
  - reflexivity.
  - repeat constructor.
Defined.

Lemma search_fails_on_hit_without_source_witness :
  let w := scripted dev_config (with_search hits_without_source (healthy [])) in
  let embedding := PList [PInt 1; PInt 0; PInt 2] in
  exists e : exn,
    run w (search_similar_documents dev_config embedding 5) [] =
      (Raise e,
       [] ++ [Invoke (opensearch_search (lit "documents") (search_body embedding 5));
              Invoke (logger_error (lit "Error searching documents: " ++ exc_str e))]).
Proof.
  intros w embedding.
  eapply (search_fails_on_hit_without_source dev_config w embedding 5 (lit "documents")
            _ _ _ [(lit "_id", PStr (lit "7"))]).
  - vm_compute. reflexivity.
  - reflexivity.
  - reflexivity.
  - reflexivity.
  - set_solver.
  - reflexivity.
Defined.

Lemma no_request_without_credential_witness :
  let w := scripted dev_config (with_secret binary_secret (healthy [doc_rag])) in
  let e := KeyError (lit "SecretString") in
  let read :=
    [Invoke (get_secret_value (lit "rag/llm-api-key"));
     Invoke (logger_error (lit "Error retrieving secret: 'SecretString'"))] in
  run w (generate_embedding (H := sample_rt) dev_config (lit "What is RAG?")) [] =
    (Raise e,
     read ++ [Invoke (logger_error (lit "Error generating embedding: 'SecretString'"))])
  /\ run w (generate_rag_response (H := sample_rt) dev_config (lit "What is RAG?")
              [doc_rag]) [] =
       (Raise e,
        read ++ [Invoke (logger_error (lit "Error generating LLM response: 'SecretString'"))]).
Proof.
  intros w e read.
  apply (no_request_without_credential (H := sample_rt) dev_config w
           (lit "What is RAG?") (lit "What is RAG?") [doc_rag] e []).
  reflexivity.
Defined.

Lemma generation_returns_first_choice_witness :
  let docs := [doc_rag] in
  let w := scripted dev_config (healthy docs) in
  let context := join (nl ++ nl) (map (document_text (H := sample_rt)) docs) in
  run w (generate_rag_response (H := sample_rt) dev_config (lit "What is RAG?") docs) [] =
    (Ok (PStr (lit "RAG combines retrieval and generation.")),
     [Invoke (get_secret_value (lit "rag/llm-api-key"))]
       ++ [Invoke (requests_post
                     (EXTERNAL_LLM_ENDPOINT dev_config ++ lit "/chat/completions")
                     (bearer_headers (H := sample_rt) (PStr (lit "sk-sample")))
                     (chat_payload (prompt_of context (lit "What is RAG?"))) 60)]).
Proof.
  intros docs w context.
  set (payload := chat_completion (lit "RAG combines retrieval and generation.")).
  refine (proj2 (generation_returns_first_choice (H := sample_rt) dev_config w
                   (lit "What is RAG?") docs api_secret (PStr (lit "sk-sample")) context
                   {| Response.status_code := 200;
                      Response.text := sample_dumps payload;
                      Response.json := Ok payload |}
                   [] [Invoke (get_secret_value (lit "rag/llm-api-key"))] _ _ _ _)
            eq_refl payload _ _ _ [] eq_refl eq_refl eq_refl eq_refl).
  - vm_compute. reflexivity.
  - reflexivity.
  - reflexivity.
  - reflexivity.
Defined.

Lemma generation_needs_records_witness :
  let docs := [doc_rag; PStr (lit "not a record")] in
  let w := scripted dev_config (healthy docs) in
  exists bad : pyval,
    bad ∈ docs /\ ~ is_record bad
    /\ run w (generate_rag_response (H := sample_rt) dev_config (lit "What is RAG?") docs)
             [] =
         (Raise (AttributeError bad "get"),
          [Invoke (get_secret_value (lit "rag/llm-api-key"))]
            ++ [Invoke (logger_error
                          (lit "Error generating LLM response: "
                             ++ exc_str (AttributeError bad "get")))]).
Proof.
  intros docs w.
  eapply (generation_needs_records (H := sample_rt) dev_config w (lit "What is RAG?") docs
            (PStr (lit "not a record")) api_secret (PStr (lit "sk-sample")) []).
  - vm_compute. reflexivity.
  - reflexivity.
  - set_solver.
  - intros [].
Defined.

Lemma embedding_reading_failures_witness :
  let empty := PDict [(lit "data", PList [])] in
  let w := scripted dev_config (with_embeddings (http_ok empty) (healthy [doc_rag])) in
  run w (generate_embedding (H := sample_rt) dev_config (lit "What is RAG?")) [] =
    (Raise (IndexError (lit "list index out of range")),
     [Invoke (get_secret_value (lit "rag/llm-api-key"))]
       ++ [Invoke (requests_post
                     (EXTERNAL_LLM_ENDPOINT dev_config ++ lit "/embeddings")
                     (bearer_headers (H := sample_rt) (PStr (lit "sk-sample")))
                     (PDict [(lit "input", PStr (lit "What is RAG?"));
                             (lit "model", PStr (lit "text-embedding-ada-002"))]) 30);
           Invoke (logger_error
                     (lit "Error generating embedding: list index out of range"))]).
Proof.
  intros empty w.
  refine (proj2 (proj2 (proj2 (embedding_reading_failures (H := sample_rt) dev_config w
                                 (lit "What is RAG?") api_secret (PStr (lit "sk-sample"))
                                 [] [Invoke (get_secret_value (lit "rag/llm-api-key"))]
                                 _ _)
                          {| Response.status_code := 200;
                             Response.text := sample_dumps empty;
                             Response.json := Ok empty |} eq_refl eq_refl))
            empty eq_refl eq_refl).
  - vm_compute. reflexivity.
  - reflexivity.
Defined.

Lemma validation_error_only_before_any_call_witness :
  run (scripted dev_config (healthy [doc_rag]))
      (lambda_handler (H := sample_rt) dev_config blank_event) [] =
    (Ok {| statusCode := 400;
           headers := json_cors_headers;
           body := sample_dumps (PDict [(lit "error", PStr (lit "Query is required"))]) |},
     [Invoke get_remaining_time_in_millis]).
Proof.
  eapply (validation_error_only_before_any_call (H := sample_rt) dev_config
            (scripted dev_config (healthy [doc_rag])) blank_event).
  - vm_compute. reflexivity.
  - reflexivity.
Defined.

Lemma raw_and_structured_bodies_agree_witness :
  let w := scripted dev_config (healthy [doc_rag]) in
  run w (lambda_handler (H := sample_rt) dev_config rag_event) []
  = run w (lambda_handler (H := sample_rt) dev_config
             (structured_event (query_request rag_question))) [].
Proof.
  intros w.
  apply (raw_and_structured_bodies_agree (H := sample_rt) dev_config w _ _
           (sample_dumps (query_request rag_question)) (query_request rag_question)).
  - reflexivity.
  - vm_compute. reflexivity.
  - reflexivity.
  - reflexivity.
Defined.

Lemma embedding_refusal_ends_request_witness :
  let w := scripted prod_config (embeddings_down (lit "overloaded")) in
  let post :=
    requests_post (EXTERNAL_LLM_ENDPOINT prod_config ++ lit "/embeddings")
      (bearer_headers (H := sample_rt) (PStr (lit "sk-sample")))
      (PDict [(lit "input", PStr (lit "What is RAG?"));
              (lit "model", PStr (lit "text-embedding-ada-002"))]) 30 in
  let logged :=
    (validated_trace (lit "What is RAG?")
       ++ [Invoke (get_secret_value (lit "rag/llm-api-key"))])
      ++ [Invoke post;
          Invoke (logger_error (lit "Embedding API error: 503 - overloaded"));
          Invoke (logger_error
                    (lit "Error generating embedding: Embedding generation failed: 503"));
          Invoke (logger_error
                    (lit "Error processing query: Embedding generation failed: 503"))] in
  run w (lambda_handler (H := sample_rt) prod_config rag_event) [] =
    (Ok {| statusCode := 500;
           headers := json_cors_headers;
           body :=
             sample_dumps
               (PDict [(lit "error", PStr (lit "Internal server error"));
                       (lit "message",
                        PStr (lit "An error occurred processing your request"))]) |},
     logged ++ error_count_call prod_config
       :: publish_log (w _ (put_metric_data (lit "RAG/Application")
                              (metric_data prod_config (lit "QueryErrors") (PInt 1)
                                 (lit "Count")))
                         logged)).
Proof.
  intros w post logged.
  refine (embedding_refusal_ends_request (H := sample_rt) prod_config w rag_event
            [(lit "query", PStr rag_question)] rag_question api_secret
            (PStr (lit "sk-sample"))
            {| Response.status_code := 503;
               Response.text := lit "overloaded";
               Response.json :=
                 Raise (Exn "JSONDecodeError"
                            (lit "Expecting value: line 1 column 1 (char 0)")) |}
            (validated_trace (lit "What is RAG?")
               ++ [Invoke (get_secret_value (lit "rag/llm-api-key"))])
            _ _ _ _ _ _ _).
  - eapply body_raw; [reflexivity|vm_compute; reflexivity].
  - apply query_present. reflexivity.
  - discriminate.
  - vm_compute. reflexivity.
  - reflexivity.
  - vm_compute. reflexivity.
  - discriminate.
Defined.


Lemma no_documents_publishes_nothing_witness :
  Forall (fun i => is_metric_call i = false)
         (snd (run (scripted dev_config (healthy []))
                   (lambda_handler (H := sample_rt) dev_config rag_event) [])).
Proof.
  eapply (no_documents_publishes_nothing (H := sample_rt) dev_config
            (scripted dev_config (healthy [])) rag_event
            [(lit "query", PStr rag_question)] rag_question).
  - eapply body_raw; [reflexivity|vm_compute; reflexivity].
  - apply query_present. reflexivity.
  - discriminate.
  - vm_compute. reflexivity.
  - vm_compute. reflexivity.
Defined.

Lemma pipeline_calls_in_order_witness :
  let docs := [doc_rag] in
  let query := lit "What is RAG?" in
  let embedding := PList [PInt 1; PInt 0; PInt 2] in
  exists (h4 : list invocation) (key1 key2 : pyval) (index context : pystr),
    environ dev_config !! lit "VECTOR_INDEX_NAME" = Some index
    /\ context_block (H := sample_rt) docs = Ok context
    /\ h4 = validated_trace query
              ++ [Invoke (get_secret_value (LLM_API_KEY_SECRET dev_config));
                  Invoke (requests_post
                            (EXTERNAL_LLM_ENDPOINT dev_config ++ lit "/embeddings")
                            (bearer_headers (H := sample_rt) key1)
                            (PDict [(lit "input", PStr query);
                                    (lit "model", PStr (lit "text-embedding-ada-002"))])
                            30);
                  Invoke (opensearch_search index (search_body embedding 5));
                  Invoke (get_secret_value (LLM_API_KEY_SECRET dev_config));
                  Invoke (requests_post
                            (EXTERNAL_LLM_ENDPOINT dev_config ++ lit "/chat/completions")
                            (bearer_headers (H := sample_rt) key2)
                            (chat_payload (prompt_of context query)) 60)].
Proof.
  intros docs query embedding. eexists.
  eapply (pipeline_calls_in_order (H := sample_rt) dev_config
            (scripted dev_config (healthy docs)) query embedding
            (PStr (lit "RAG combines retrieval and generation.")) docs
            (validated_trace query)).
  - vm_compute. reflexivity.
  - vm_compute. reflexivity.
  - vm_compute. reflexivity.
Defined.

Lemma malformed_request_is_internal_error_witness :
  let w := scripted dev_config (healthy [doc_rag]) in
  let e := AttributeError PNone "get" in
  let logged := [Invoke get_remaining_time_in_millis;
                 Invoke (logger_error (lit "Error processing query: " ++ exc_str e))] in
  run w (lambda_handler (H := sample_rt) dev_config (structured_event PNone)) [] =
    (Ok {| statusCode := 500;
           headers := json_cors_headers;
           body :=
             sample_dumps
               (PDict [(lit "error", PStr (lit "Internal server error"));
                       (lit "message", PStr (error_message dev_config e))]) |},
     logged ++ error_count_call dev_config
       :: publish_log (w _ (put_metric_data (lit "RAG/Application")
                              (metric_data dev_config (lit "QueryErrors") (PInt 1)
                                 (lit "Count")))
                         logged)).
Proof.
  intros w e logged.
  apply (proj1 (malformed_request_is_internal_error (H := sample_rt) dev_config w
                  [(lit "body", PNone)]) PNone).
  - reflexivity.
  - reflexivity.
  - intros [].
Defined.

Lemma content_without_length_fails_after_generation_witness :
  let w := scripted dev_config (healthy [doc_rag; doc_numeric]) in
  exists (h4 : list invocation) (e : exn),
    let logged :=
      h4 ++ [Invoke (logger_error (lit "Error processing query: " ++ exc_str e))] in
    run w (lambda_handler (H := sample_rt) dev_config rag_event) [] =
      (Ok {| statusCode := 500;
             headers := json_cors_headers;
             body :=
               sample_dumps
                 (PDict [(lit "error", PStr (lit "Internal server error"));
                         (lit "message", PStr (error_message dev_config e))]) |},
       logged ++ error_count_call dev_config
         :: publish_log (w _ (put_metric_data (lit "RAG/Application")
                                (metric_data dev_config (lit "QueryErrors") (PInt 1)
                                   (lit "Count")))
                           logged)).
Proof.
  intros w. eexists.
  eapply (content_without_length_fails_after_generation (H := sample_rt) dev_config w
            rag_event [(lit "query", PStr rag_question)] rag_question
            (PList [PInt 1; PInt 0; PInt 2])
            (PStr (lit "RAG combines retrieval and generation."))
            [doc_rag; doc_numeric]
            [(lit "title", PStr (lit "Count")); (lit "content", PInt 5)] (PInt 5)).
  - eapply body_raw; [reflexivity|vm_compute; reflexivity].
  - apply query_present. reflexivity.
  - discriminate.
  - vm_compute. reflexivity.
  - vm_compute. reflexivity.
  - vm_compute. reflexivity.
  - set_solver.
  - reflexivity.
  - exact I.
Defined.
